(** * passwordless-datastore-store: a token store on Google Datastore

    A shallow embedding of [lib/datastore-store.js] and the properties of
    its five operations ([authenticate], [storeOrUpdate], [invalidateUser],
    [clear], [length]) and of its constructor.

    The JavaScript is asynchronous and effectful: every operation either
    throws synchronously or, later, invokes the caller's callback once.  It
    is embedded as a function from the state of the outside world (the
    Datastore behind the client handle, the wall clock, bcrypt's salt source)
    to the outcome and the next state of the world. *)

From Stdlib Require Import List ZArith NArith String Bool Lia.
Import ListNotations.

Local Open Scope string_scope.
Local Open Scope list_scope.

(** ** JavaScript values as the code uses them *)

(** An [Error] object, identified by its message. *)
Definition Error : Type := string.

(** What a call of one of the store's functions comes to: a synchronous
    [throw], or one invocation of the callback with the given arguments. *)
Inductive Outcome (A : Type) : Type :=
| Throw (e : Error)
| Callback (args : A).
Arguments Throw {A} e.
Arguments Callback {A} args.

Module Js.

(** A [String] parameter, [None] when the argument is [undefined] or [null].
    [truthy] is JavaScript's ToBoolean: [!v] is [negb (truthy v)]. *)
Definition truthy (v : option string) : bool :=
  match v with
  | Some s => negb (s =? "")
  | None => false
  end.

(** A [Number]: an integer (a count of milliseconds) or [NaN].  Fractions
    and infinities, which are truthy like every integer but zero, are left
    out. *)
Inductive Number : Type :=
| Int (n : Z)
| NaN.

(** A [Number] parameter, [None] when it is [undefined] or [null].  Zero
    and [NaN] are the falsy numbers. *)
Definition truthy_number (v : option Number) : bool :=
  match v with
  | Some (Int n) => negb (n =? 0)%Z
  | Some NaN => false
  | None => false
  end.

(** The string held by a string argument. *)
Definition str (v : option string) : string :=
  match v with
  | Some s => s
  | None => ""
  end.

(** The number held by a number argument. *)
Definition num (v : option Z) : Z :=
  match v with
  | Some n => n
  | None => 0%Z
  end.

(** The integer held by a truthy number argument. *)
Definition int (v : option Number) : Z :=
  match v with
  | Some (Int n) => n
  | _ => 0%Z
  end.

(** [v || ''] *)
Definition or_empty (v : option string) : string :=
  if truthy v then str v else "".

End Js.

(** ** The Datastore client ([@google-cloud/datastore])

    The client library is not part of the repository.  It is modelled by the
    contract the code relies on: entities live under keys, a kind query
    returns the entities of that kind that pass every filter, [upsert]
    overwrites the entity under a complete key or creates one, allocating an
    id for an incomplete key, and [delete] removes by key.  Results come back
    in storage order.  Every request may be rejected by the backend. *)

Definition Kind : Type := option string.

Record Key : Type := mkKey {
  key_kind : Kind;
  key_id : option Z          (* [None]: an incomplete key *)
}.

(** The record [storeOrUpdate] writes. *)
Record TokenRecord : Type := mkRecord {
  uid : string;
  hashedToken : string;
  ttl : Z;
  originUrl : option string
}.

Record Entity : Type := mkEntity {
  ent_key : Key;               (* [entity[Datastore.KEY]] *)
  ent_data : TokenRecord
}.

Inductive Value : Type :=
| VString (s : string)
| VNumber (n : Z).

Inductive Operator : Type :=
| OpEq
| OpGt.

Record Filter : Type := mkFilter {
  f_property : string;
  f_op : Operator;
  f_value : Value
}.

Record Query : Type := mkQuery {
  q_kind : Kind;
  q_keys_only : bool;          (* [.select('__key__')] *)
  q_filters : list Filter
}.

Inductive Call : Type :=
| CallRunQuery (q : Query)
| CallUpsert (e : Entity)
| CallDelete (ks : list Key).

(** The world outside the store. *)
Record World : Type := mkWorld {
  entities : list Entity;          (* what the Datastore holds *)
  clock : Z;                       (* [Date.now()] *)
  rng : N;                         (* bcrypt's source of salts *)
  faults : list (option Error);    (* fate of the next backend requests *)
  calls : list Call                (* backend requests made so far *)
}.

(** A promise: run against the world, it is rejected or fulfilled. *)
Definition Promise (A : Type) : Type := World -> (Error + A) * World.

Module Datastore.

Definition kind_eqb (a b : Kind) : bool :=
  match a, b with
  | Some x, Some y => x =? y
  | None, None => true
  | _, _ => false
  end.

Definition id_eqb (a b : option Z) : bool :=
  match a, b with
  | Some x, Some y => (x =? y)%Z
  | None, None => true
  | _, _ => false
  end.

Definition key_eqb (a b : Key) : bool :=
  kind_eqb (key_kind a) (key_kind b) && id_eqb (key_id a) (key_id b).

Definition value_eqb (a b : Value) : bool :=
  match a, b with
  | VString x, VString y => x =? y
  | VNumber x, VNumber y => (x =? y)%Z
  | _, _ => false
  end.

(** [a > b], within one type. *)
Definition value_gtb (a b : Value) : bool :=
  match a, b with
  | VString x, VString y => String.ltb y x
  | VNumber x, VNumber y => (y <? x)%Z
  | _, _ => false
  end.

Definition property (d : TokenRecord) (name : string) : option Value :=
  if name =? "uid" then Some (VString (uid d))
  else if name =? "hashedToken" then Some (VString (hashedToken d))
  else if name =? "ttl" then Some (VNumber (ttl d))
  else if name =? "originUrl" then option_map VString (originUrl d)
  else None.

Definition passes (d : TokenRecord) (f : Filter) : bool :=
  match property d (f_property f) with
  | Some v =>
      match f_op f with
      | OpEq => value_eqb v (f_value f)
      | OpGt => value_gtb v (f_value f)
      end
  | None => false
  end.

Definition matches (q : Query) (e : Entity) : bool :=
  kind_eqb (key_kind (ent_key e)) (q_kind q)
  && forallb (passes (ent_data e)) (q_filters q).

(** [datastore.createQuery(kind)] *)
Definition createQuery (kind : Kind) : Query :=
  mkQuery kind false [].

(** [query.select('__key__')] *)
Definition select_key (q : Query) : Query :=
  mkQuery (q_kind q) true (q_filters q).

(** [query.filter(property, operator, value)] *)
Definition filter (q : Query) (property : string) (op : Operator) (v : Value) : Query :=
  mkQuery (q_kind q) (q_keys_only q) (q_filters q ++ [mkFilter property op v]).

(** [datastore.key(kind)]: an incomplete key. *)
Definition key (kind : Kind) : Key :=
  mkKey kind None.

(** A request reaches the backend: it is logged and meets its fate. *)
Definition request (c : Call) (w : World) : option Error * World :=
  match faults w with
  | [] => (None, mkWorld (entities w) (clock w) (rng w) [] (calls w ++ [c]))
  | f :: fs => (f, mkWorld (entities w) (clock w) (rng w) fs (calls w ++ [c]))
  end.

Definition with_entities (es : list Entity) (w : World) : World :=
  mkWorld es (clock w) (rng w) (faults w) (calls w).

(** [datastore.runQuery(query)], fulfilled with [result[0]].  A keys-only
    query is answered with the same entities: of these the store reads the
    key and nothing else. *)
Definition runQuery (q : Query) : Promise (list Entity) :=
  fun w =>
    match request (CallRunQuery q) w with
    | (Some err, w') => (inl err, w')
    | (None, w') => (inr (List.filter (matches q) (entities w')), w')
    end.

Definition max_id (es : list Entity) : Z :=
  fold_right (fun e m => Z.max (Js.num (key_id (ent_key e))) m) 0%Z es.

(** The id the backend gives to an incomplete key: one no entity has. *)
Definition allocate_id (es : list Entity) : Z :=
  (max_id es + 1)%Z.

Definition has_key (k : Key) (e : Entity) : bool :=
  key_eqb (ent_key e) k.

Definition put (k : Key) (d : TokenRecord) (es : list Entity) : list Entity :=
  if existsb (has_key k) es
  then map (fun e => if has_key k e then mkEntity k d else e) es
  else es ++ [mkEntity k d].

(** The key an entity is written under: its own when complete. *)
Definition complete (k : Key) (es : list Entity) : Key :=
  match key_id k with
  | Some _ => k
  | None => mkKey (key_kind k) (Some (allocate_id es))
  end.

(** [datastore.upsert(entity)] *)
Definition upsert (e : Entity) : Promise unit :=
  fun w =>
    match request (CallUpsert e) w with
    | (Some err, w') => (inl err, w')
    | (None, w') =>
        let k := complete (ent_key e) (entities w') in
        (inr tt, with_entities (put k (ent_data e) (entities w')) w')
    end.

Definition remove (ks : list Key) (es : list Entity) : list Entity :=
  List.filter (fun e => negb (existsb (key_eqb (ent_key e)) ks)) es.

(** [datastore.delete(keys)] with an array of keys. *)
Definition delete_all (ks : list Key) : Promise unit :=
  fun w =>
    match request (CallDelete ks) w with
    | (Some err, w') => (inl err, w')
    | (None, w') => (inr tt, with_entities (remove ks (entities w')) w')
    end.

(** [datastore.delete(key)] with one key. *)
Definition delete (k : Key) : Promise unit :=
  delete_all [k].

End Datastore.

(** ** bcrypt

    [bcrypt.hash(data, rounds, cb)] draws a salt and calls back with an error
    or the digest; [bcrypt.compare(data, digest, cb)] calls back with an error
    or the verdict.  The library is external: the store is verified against
    this interface. *)
Class Bcrypt : Type := {
  bcrypt_hash : string -> nat -> N -> Error + string;
  bcrypt_compare : string -> string -> Error + bool
}.

(** The one law of bcrypt the store relies on: a digest verifies the data
    it was made from. *)
Class BcryptVerifies (B : Bcrypt) : Prop :=
  compare_hash : forall data rounds salt digest,
    bcrypt_hash data rounds salt = inr digest ->
    bcrypt_compare data digest = inr true.

(** A toy instance to run the store on: the digest is the salt, as one
    character, in front of the data; the empty digest is malformed. *)
Definition toy_hash (data : string) (rounds : nat) (salt : N) : Error + string :=
  inr (String (Ascii.ascii_of_N salt) data).

Definition toy_compare (data digest : string) : Error + bool :=
  match digest with
  | EmptyString => inl "Not a valid BCrypt hash."
  | String _ d => inr (data =? d)
  end.

Definition ToyBcrypt : Bcrypt :=
  {| bcrypt_hash := toy_hash; bcrypt_compare := toy_compare |}.

(** A bcrypt whose hashing fails, as when no salt can be drawn. *)
Definition SaltlessBcrypt : Bcrypt :=
  {| bcrypt_hash := fun _ _ _ => inl "salt generation failed";
     bcrypt_compare := toy_compare |}.

(** ** The store *)

Definition Handle : Type := nat.

Record DatastoreStore : Type := mkStore {
  datastore : option Handle;
  kind : Kind
}.

(** [function DatastoreStore(datastore, kind)], called with
    [arguments_length] arguments; a parameter that was not passed is
    [undefined]. *)
Definition DatastoreStore_new (arguments_length : nat)
    (datastore : option Handle) (kind : option string) : Outcome DatastoreStore :=
  if (arguments_length =? 0)%nat
  then Throw "A valid google cloud datastore instance has to be provided"
  else Callback (mkStore datastore kind).

(** The arguments of [authenticate]'s callback: [(error, valid, referrer)]. *)
Record AuthResult : Type := mkAuth {
  auth_error : option Error;
  auth_valid : bool;
  auth_referrer : option string
}.

Section Store.

Context {B : Bcrypt}.

(** [bcrypt.hash(token, rounds, cb)]: the salt comes from the world. *)
Definition hash (data : string) (rounds : nat) (w : World) : (Error + string) * World :=
  (bcrypt_hash data rounds (rng w),
   mkWorld (entities w) (clock w) (N.succ (rng w)) (faults w) (calls w)).

Definition Date_now (w : World) : Z := clock w.

Definition authenticate (this : DatastoreStore) (token uid : option string)
    (callback : bool) (w : World) : Outcome AuthResult * World :=
  if negb (Js.truthy token) || negb (Js.truthy uid) || negb callback
  then (Throw "TokenStore:authenticate called with invalid parameters", w)
  else
    let query :=
      Datastore.filter
        (Datastore.filter (Datastore.createQuery (kind this))
           "uid" OpEq (VString (Js.str uid)))
        "ttl" OpGt (VNumber (Date_now w)) in
    match Datastore.runQuery query w with
    | (inr results, w1) =>
        match results with
        | [] => (Callback (mkAuth None false None), w1)
        | r0 :: _ =>
            match bcrypt_compare (Js.str token) (hashedToken (ent_data r0)) with
            | inl err => (Callback (mkAuth (Some err) false None), w1)
            | inr true =>
                (Callback (mkAuth None true
                             (Some (Js.or_empty (originUrl (ent_data r0))))), w1)
            | inr false => (Callback (mkAuth None false None), w1)
            end
        end
    | (inl err, w1) => (Callback (mkAuth (Some err) false None), w1)
    end.

Definition storeOrUpdate (this : DatastoreStore) (token uid : option string)
    (msToLive : option Js.Number) (originUrl : option string) (callback : bool)
    (w : World) : Outcome (option Error) * World :=
  if negb (Js.truthy token) || negb (Js.truthy uid)
     || negb (Js.truthy_number msToLive) || negb callback
  then (Throw "TokenStore:storeOrUpdate called with invalid parameters", w)
  else
    match hash (Js.str token) 10 w with
    | (inl err, w1) => (Callback (Some err), w1)
    | (inr hashedToken, w1) =>
        let newRecord :=
          mkRecord (Js.str uid) hashedToken
                   (Date_now w1 + Js.int msToLive)%Z originUrl in
        let query :=
          Datastore.filter
            (Datastore.select_key (Datastore.createQuery (kind this)))
            "uid" OpEq (VString (Js.str uid)) in
        match Datastore.runQuery query w1 with
        | (inr results, w2) =>
            let key :=
              match results with
              | r0 :: _ => ent_key r0
              | [] => Datastore.key (kind this)
              end in
            let entity := mkEntity key newRecord in
            match Datastore.upsert entity w2 with
            | (inr _, w3) => (Callback None, w3)
            | (inl err, w3) => (Callback (Some err), w3)
            end
        | (inl err, w2) => (Callback (Some err), w2)
        end
    end.

Definition invalidateUser (this : DatastoreStore) (uid : option string)
    (callback : bool) (w : World) : Outcome (option Error) * World :=
  if negb (Js.truthy uid) || negb callback
  then (Throw "TokenStore:invalidateUser called with invalid parameters", w)
  else
    let query :=
      Datastore.filter
        (Datastore.select_key (Datastore.createQuery (kind this)))
        "uid" OpEq (VString (Js.str uid)) in
    match Datastore.runQuery query w with
    | (inr results, w1) =>
        match results with
        | r0 :: _ =>
            match Datastore.delete (ent_key r0) w1 with
            | (inr _, w2) => (Callback None, w2)
            | (inl err, w2) => (Callback (Some err), w2)
            end
        | [] => (Callback None, w1)
        end
    | (inl err, w1) => (Callback (Some err), w1)
    end.

Definition clear (this : DatastoreStore) (callback : bool) (w : World)
    : Outcome (option Error) * World :=
  if negb callback
  then (Throw "TokenStore:clear called with invalid parameters", w)
  else
    let query := Datastore.select_key (Datastore.createQuery (kind this)) in
    match Datastore.runQuery query w with
    | (inr results, w1) =>
        if (0 <? List.length results)%nat
        then
          let keys := map ent_key results in
          match Datastore.delete_all keys w1 with
          | (inr _, w2) => (Callback None, w2)
          | (inl err, w2) => (Callback (Some err), w2)
          end
        else (Callback None, w1)
    | (inl err, w1) => (Callback (Some err), w1)
    end.

(** [length(callback)]: the callback gets [(err)] or [(null, count)]. *)
Definition length (this : DatastoreStore) (w : World)
    : Outcome (Error + nat) * World :=
  let query := Datastore.select_key (Datastore.createQuery (kind this)) in
  match Datastore.runQuery query w with
  | (inr results, w1) => (Callback (inr (List.length results)), w1)
  | (inl err, w1) => (Callback (inl err), w1)
  end.

End Store.

(** ** Vocabulary of the specification *)

(** The backend rejects none of the requests to come. *)
Definition fault_free (w : World) : bool :=
  forallb (fun f => match f with None => true | Some _ => false end) (faults w).

(** The world after one more request went through. *)
Definition logged (c : Call) (w : World) : World :=
  mkWorld (entities w) (clock w) (rng w) (tl (faults w)) (calls w ++ [c]).

(** Time passes. *)
Definition elapse (ms : Z) (w : World) : World :=
  mkWorld (entities w) (clock w + ms)%Z (rng w) (faults w) (calls w).

Definition of_kind (k : Kind) (e : Entity) : bool :=
  Datastore.kind_eqb (key_kind (ent_key e)) k.

Definition of_uid (k : Kind) (u : string) (e : Entity) : bool :=
  of_kind k e && (uid (ent_data e) =? u).

Definition live (now : Z) (e : Entity) : bool :=
  (now <? ttl (ent_data e))%Z.

(** The records of the store, those of one user, and the unexpired ones
    among these, each in storage order. *)
Definition stored (this : DatastoreStore) (w : World) : list Entity :=
  List.filter (of_kind (kind this)) (entities w).

Definition records_for (this : DatastoreStore) (u : string) (w : World) : list Entity :=
  List.filter (of_uid (kind this) u) (entities w).

Definition live_for (this : DatastoreStore) (u : string) (w : World) : list Entity :=
  List.filter (live (clock w)) (records_for this u w).

(** Every stored key is complete and no two entities share a key: what the
    Datastore itself guarantees of its contents. *)
Definition complete_keys (es : list Entity) : bool :=
  forallb (fun e => match key_id (ent_key e) with Some _ => true | None => false end) es.

Fixpoint distinct_keys (es : list Entity) : bool :=
  match es with
  | [] => true
  | e :: es' => negb (existsb (Datastore.has_key (ent_key e)) es') && distinct_keys es'
  end.

Definition well_formed (w : World) : bool :=
  complete_keys (entities w) && distinct_keys (entities w).

(** A user has at most one record, whichever store object looks. *)
Definition one_per_user (es : list Entity) : Prop :=
  forall (k : Kind) (u : string),
    (List.length (List.filter (of_uid k u) es) <= 1)%nat.

(** What the datastore holds is good: keys complete and distinct, one
    record per user at most. *)
Definition good (es : list Entity) : Prop :=
  complete_keys es = true /\ distinct_keys es = true /\ one_per_user es.

Section Runs.

Context {B : Bcrypt}.

(** One thing that happens to the world: a call of the store, through any
    store object and with any arguments, or time passing.  Calls do not
    overlap. *)
Inductive step : World -> World -> Prop :=
| step_authenticate this token uid callback w :
    step w (snd (authenticate this token uid callback w))
| step_storeOrUpdate this token uid msToLive originUrl callback w :
    step w (snd (storeOrUpdate this token uid msToLive originUrl callback w))
| step_invalidateUser this uid callback w :
    step w (snd (invalidateUser this uid callback w))
| step_clear this callback w :
    step w (snd (clear this callback w))
| step_length this w :
    step w (snd (length this w))
| step_elapse ms w :
    step w (elapse ms w).

(** The worlds a run of calls reaches from an empty datastore, whatever the
    clock, the salts and the faults to come. *)
Inductive reachable : World -> Prop :=
| reachable_empty now salt fs : reachable (mkWorld [] now salt fs [])
| reachable_step w w' : reachable w -> step w w' -> reachable w'.

End Runs.

(** The key [storeOrUpdate] hands to [upsert] for a user, and the key the
    record ends up under. *)
Definition chosen_key (this : DatastoreStore) (u : string) (w : World) : Key :=
  match records_for this u w with
  | r0 :: _ => ent_key r0
  | [] => Datastore.key (kind this)
  end.

Definition target_key (this : DatastoreStore) (u : string) (w : World) : Key :=
  Datastore.complete (chosen_key this u w) (entities w).

(** [authenticate]'s verdict when it turns the caller away. *)
Definition rejected : AuthResult := mkAuth None false None.

Definition is_throw {A : Type} (o : Outcome A) : bool :=
  match o with
  | Throw _ => true
  | Callback _ => false
  end.

(** The record is one of the user. *)
Definition record_of (d : TokenRecord) (u : string) : Prop :=
  uid d = u.

(** An argument the guards of the store turn down. *)
Definition missing_or_empty (v : option string) : Prop :=
  v = None \/ v = Some "".

Definition missing_zero_or_NaN (v : option Js.Number) : Prop :=
  v = None \/ v = Some (Js.Int 0) \/ v = Some Js.NaN.

(** Worlds for running the store on: the clock reads 1000; a record is
    written [test_record uid digest ttl originUrl id]. *)
Definition test_store : DatastoreStore := mkStore (Some 0%nat) (Some "passwordless-test").

Definition test_record (u h : string) (t : Z) (o : option string) (id : Z) : Entity :=
  mkEntity (mkKey (Some "passwordless-test") (Some id)) (mkRecord u h t o).

Definition world_of (es : list Entity) : World := mkWorld es 1000 0 [] [].

Definition empty_world : World := world_of [].

(** One live record of user u1, for the token abc123. *)
Definition one_world : World :=
  world_of [test_record "u1" "$abc123" 2000 (Some "/dashboard") 1].

(** One expired record of user u1. *)
Definition expired_world : World :=
  world_of [test_record "u1" "$abc123" 900 (Some "/dashboard") 1].

(** Two records of user u1, as two racing calls of [storeOrUpdate] leave
    them, and a record of user u2. *)
Definition duplicate_world : World :=
  world_of [test_record "u1" "$first" 2000 None 1;
            test_record "u2" "$other" 2000 None 2;
            test_record "u1" "$second" 3000 (Some "/late") 3].

(** A record whose digest is malformed. *)
Definition malformed_world : World :=
  world_of [test_record "u1" "" 2000 None 1].

(** The backend rejects the next request. *)
Definition failing_world : World :=
  mkWorld [test_record "u1" "$abc123" 2000 None 1] 1000 0 [Some "UNAVAILABLE"] [].

(** The backend answers the next request and rejects the one after. *)
Definition write_failing_world : World :=
  mkWorld [test_record "u1" "$abc123" 2000 None 1] 1000 0
    [None; Some "DEADLINE_EXCEEDED"] [].

(** ** Equality tests and queries *)

Lemma kind_eqb_eq (a b : Kind) : Datastore.kind_eqb a b = true <-> a = b.
Proof.
  destruct a as [x|], b as [y|]; simpl; split; intro H;
    try discriminate; try reflexivity.
  - apply String.eqb_eq in H. now subst.
  - injection H as ->. apply String.eqb_refl.
Qed.

Lemma id_eqb_eq (a b : option Z) : Datastore.id_eqb a b = true <-> a = b.
Proof.
  destruct a as [x|], b as [y|]; simpl; split; intro H;
    try discriminate; try reflexivity.
  - apply Z.eqb_eq in H. now subst.
  - injection H as ->. apply Z.eqb_refl.
Qed.

Lemma key_eqb_eq (a b : Key) : Datastore.key_eqb a b = true <-> a = b.
Proof.
  unfold Datastore.key_eqb. rewrite andb_true_iff, kind_eqb_eq, id_eqb_eq.
  destruct a, b; simpl; split.
  - intros [-> ->]. reflexivity.
  - intros H. injection H as -> ->. split; reflexivity.
Qed.

Lemma key_eqb_refl (k : Key) : Datastore.key_eqb k k = true.
Proof. now apply key_eqb_eq. Qed.

Lemma key_eqb_sym (a b : Key) : Datastore.key_eqb a b = Datastore.key_eqb b a.
Proof.
  destruct (Datastore.key_eqb a b) eqn:E, (Datastore.key_eqb b a) eqn:F;
    try reflexivity.
  - apply key_eqb_eq in E. subst. rewrite key_eqb_refl in F. discriminate.
  - apply key_eqb_eq in F. subst. rewrite key_eqb_refl in E. discriminate.
Qed.

Lemma truthy_nonempty (s : string) : s <> "" -> Js.truthy (Some s) = true.
Proof.
  intro H. simpl. apply negb_true_iff. now apply String.eqb_neq.
Qed.

(** The query of [storeOrUpdate] and [invalidateUser] selects the records of
    the user, that of [authenticate] the unexpired ones among them, that of
    [clear] and [length] every record of the kind. *)
Lemma matches_uid (k : Kind) (u : string) (e : Entity) :
  Datastore.matches
    (Datastore.filter (Datastore.select_key (Datastore.createQuery k))
       "uid" OpEq (VString u)) e
  = of_uid k u e.
Proof.
  unfold Datastore.matches, of_uid, of_kind. simpl.
  unfold Datastore.passes. simpl. now rewrite andb_true_r.
Qed.

Lemma matches_uid_live (k : Kind) (u : string) (now : Z) (e : Entity) :
  Datastore.matches
    (Datastore.filter
       (Datastore.filter (Datastore.createQuery k) "uid" OpEq (VString u))
       "ttl" OpGt (VNumber now)) e
  = of_uid k u e && live now e.
Proof.
  unfold Datastore.matches, of_uid, of_kind, live. simpl.
  unfold Datastore.passes. simpl. now rewrite andb_true_r, andb_assoc.
Qed.

Lemma matches_kind (k : Kind) (e : Entity) :
  Datastore.matches (Datastore.select_key (Datastore.createQuery k)) e
  = of_kind k e.
Proof.
  unfold Datastore.matches, of_kind. simpl. now rewrite andb_true_r.
Qed.

Lemma filter_and {A : Type} (p q : A -> bool) (l : list A) :
  List.filter (fun x => p x && q x) l = List.filter q (List.filter p l).
Proof.
  induction l as [|x l IH]; simpl; [reflexivity|].
  destruct (p x); simpl; [|exact IH].
  destruct (q x); now rewrite IH.
Qed.

Lemma filter_swap {A : Type} (p q : A -> bool) (l : list A) :
  List.filter p (List.filter q l) = List.filter q (List.filter p l).
Proof.
  induction l as [|x l IH]; simpl; [reflexivity|].
  destruct (p x) eqn:P, (q x) eqn:Q; simpl; rewrite ?P, ?Q, IH; reflexivity.
Qed.

(** ** Requests to a backend that does not fail *)

Lemma request_ok (c : Call) (w : World) :
  fault_free w = true -> Datastore.request c w = (None, logged c w).
Proof.
  unfold fault_free, Datastore.request, logged.
  destruct (faults w) as [|[err|] fs]; simpl; intro H;
    try discriminate; reflexivity.
Qed.

Lemma logged_fault_free (c : Call) (w : World) :
  fault_free w = true -> fault_free (logged c w) = true.
Proof.
  unfold fault_free, logged. simpl.
  destruct (faults w) as [|[err|] fs]; simpl; intro H;
    try discriminate; assumption.
Qed.

Lemma with_entities_fault_free (es : list Entity) (w : World) :
  fault_free (Datastore.with_entities es w) = fault_free w.
Proof. reflexivity. Qed.

Lemma request_fails (c : Call) (w : World) (err : Error) (fs : list (option Error)) :
  faults w = Some err :: fs ->
  Datastore.request c w
  = (Some err, mkWorld (entities w) (clock w) (rng w) fs (calls w ++ [c])).
Proof.
  unfold Datastore.request. now intros ->.
Qed.

Lemma runQuery_ok (q : Query) (w : World) :
  fault_free w = true ->
  Datastore.runQuery q w
  = (inr (List.filter (Datastore.matches q) (entities w)), logged (CallRunQuery q) w).
Proof.
  intro H. unfold Datastore.runQuery. now rewrite request_ok.
Qed.

Section Authenticate.

Context {B : Bcrypt}.

(** The verdict on the first unexpired record of the user, if any. *)
Lemma authenticate_run (this : DatastoreStore) (token uid : string) (w : World) :
  token <> "" -> uid <> "" -> fault_free w = true ->
  fst (authenticate this (Some token) (Some uid) true w)
  = match live_for this uid w with
    | [] => Callback rejected
    | r0 :: _ =>
        match bcrypt_compare token (hashedToken (ent_data r0)) with
        | inl err => Callback (mkAuth (Some err) false None)
        | inr true =>
            Callback (mkAuth None true (Some (Js.or_empty (originUrl (ent_data r0)))))
        | inr false => Callback rejected
        end
    end.
Proof.
  intros Ht Hu Hw. unfold authenticate.
  rewrite (truthy_nonempty _ Ht), (truthy_nonempty _ Hu). simpl negb. simpl orb.
  cbv iota. rewrite runQuery_ok by assumption.
  unfold Date_now. simpl Js.str.
  rewrite (filter_ext _ _ (matches_uid_live (kind this) uid (clock w))).
  rewrite filter_and. fold (records_for this uid w). fold (live_for this uid w).
  destruct (live_for this uid w) as [|r0 rest]; [reflexivity|].
  destruct (bcrypt_compare token (hashedToken (ent_data r0))) as [err|[|]];
    reflexivity.
Qed.

(** C2: [authenticate] answers [(null, false, null)] alike when the user has
    no record, when every record of the user has [ttl <= now] (such records
    are still stored, and are passed over), and when the token does not
    verify against the stored hash. *)
Theorem authenticate_rejects_alike (this : DatastoreStore) (token uid : string) (w : World) :
  token <> "" -> uid <> "" -> fault_free w = true ->
  (records_for this uid w = [] ->
   fst (authenticate this (Some token) (Some uid) true w) = Callback rejected)
  /\ (forallb (fun e => (ttl (ent_data e) <=? clock w)%Z) (records_for this uid w) = true ->
      fst (authenticate this (Some token) (Some uid) true w) = Callback rejected)
  /\ (forall r0 rest,
        live_for this uid w = r0 :: rest ->
        bcrypt_compare token (hashedToken (ent_data r0)) = inr false ->
        fst (authenticate this (Some token) (Some uid) true w) = Callback rejected).
Proof.
  intros Ht Hu Hw. rewrite (authenticate_run this token uid w Ht Hu Hw).
  assert (Hexp : forallb (fun e => (ttl (ent_data e) <=? clock w)%Z)
                   (records_for this uid w) = true ->
                 live_for this uid w = []).
  { unfold live_for. induction (records_for this uid w) as [|e l IH]; simpl.
    - reflexivity.
    - rewrite andb_true_iff. intros [He Hl]. unfold live at 1.
      apply Z.leb_le in He.
      destruct (clock w <? ttl (ent_data e))%Z eqn:E.
      + apply Z.ltb_lt in E. lia.
      + now apply IH. }
  repeat split.
  - intros Hnone. unfold live_for. now rewrite Hnone.
  - intros Hall. now rewrite (Hexp Hall).
  - intros r0 rest Hlive Hcmp. now rewrite Hlive, Hcmp.
Qed.

(** C9: [authenticate] fails closed.  When bcrypt's comparison fails, and
    when the backend rejects the query, the callback gets the error with
    [valid = false] and [referrer = null]; an error never comes with
    [valid = true]. *)
Theorem authenticate_fails_closed (this : DatastoreStore) (token uid : string) (w : World) :
  token <> "" -> uid <> "" ->
  (forall r0 rest err,
     fault_free w = true ->
     live_for this uid w = r0 :: rest ->
     bcrypt_compare token (hashedToken (ent_data r0)) = inl err ->
     fst (authenticate this (Some token) (Some uid) true w)
     = Callback (mkAuth (Some err) false None))
  /\ (forall err fs,
        faults w = Some err :: fs ->
        fst (authenticate this (Some token) (Some uid) true w)
        = Callback (mkAuth (Some err) false None))
  /\ (forall r,
        fst (authenticate this (Some token) (Some uid) true w) = Callback r ->
        auth_error r <> None ->
        auth_valid r = false /\ auth_referrer r = None).
Proof.
  intros Ht Hu. split; [|split].
  - intros r0 rest err Hw Hlive Hcmp.
    rewrite (authenticate_run this token uid w Ht Hu Hw). now rewrite Hlive, Hcmp.
  - intros err fs Hf. unfold authenticate.
    rewrite (truthy_nonempty _ Ht), (truthy_nonempty _ Hu). simpl negb. simpl orb.
    cbv iota. unfold Datastore.runQuery.
    now rewrite (request_fails _ w err fs Hf).
  - intros r E Herr. revert E. unfold authenticate.
    rewrite (truthy_nonempty _ Ht), (truthy_nonempty _ Hu). simpl negb. simpl orb.
    cbv iota.
    destruct (Datastore.runQuery _ w) as [[err|results] w1]; simpl.
    + intros E. injection E as <-. split; reflexivity.
    + destruct results as [|r0 rest]; simpl.
      * intros E. injection E as <-. split; reflexivity.
      * destruct (bcrypt_compare _ _) as [err|[|]]; simpl;
          intros E; injection E as <-; simpl in *;
          try (split; reflexivity); congruence.
Qed.

End Authenticate.

(** ** Writing and removing entities *)

Lemma upsert_ok (e : Entity) (w : World) :
  fault_free w = true ->
  Datastore.upsert e w
  = (inr tt,
     Datastore.with_entities
       (Datastore.put (Datastore.complete (ent_key e) (entities w)) (ent_data e)
          (entities w))
       (logged (CallUpsert e) w)).
Proof.
  intro H. unfold Datastore.upsert. now rewrite request_ok.
Qed.

Lemma delete_all_ok (ks : list Key) (w : World) :
  fault_free w = true ->
  Datastore.delete_all ks w
  = (inr tt,
     Datastore.with_entities (Datastore.remove ks (entities w))
       (logged (CallDelete ks) w)).
Proof.
  intro H. unfold Datastore.delete_all. now rewrite request_ok.
Qed.

Lemma max_id_bound (es : list Entity) (e : Entity) :
  In e es -> (Js.num (key_id (ent_key e)) <= Datastore.max_id es)%Z.
Proof.
  induction es as [|x es IH]; simpl; [tauto|].
  intros [->|H]; [|specialize (IH H)]; lia.
Qed.

(** The allocated id is fresh. *)
Lemma allocated_key_absent (k : Kind) (es : list Entity) :
  existsb (Datastore.has_key (mkKey k (Some (Datastore.allocate_id es)))) es = false.
Proof.
  destruct (existsb _ es) eqn:E; [|reflexivity].
  apply existsb_exists in E. destruct E as [e [Hin Hk]].
  apply key_eqb_eq in Hk. pose proof (max_id_bound es e Hin) as Hb.
  rewrite Hk in Hb. unfold Datastore.allocate_id in Hb. simpl in Hb. lia.
Qed.

Lemma filter_head_in {A : Type} (p : A -> bool) (l : list A) (x : A) (rest : list A) :
  List.filter p l = x :: rest -> In x l /\ p x = true.
Proof.
  intro H. apply filter_In. rewrite H. now left.
Qed.

Lemma key_present (e : Entity) (es : list Entity) :
  In e es -> existsb (Datastore.has_key (ent_key e)) es = true.
Proof.
  intro H. apply existsb_exists. exists e. split; [assumption|].
  apply key_eqb_refl.
Qed.

Lemma complete_key_in (e : Entity) (es es' : list Entity) :
  complete_keys es = true -> In e es ->
  Datastore.complete (ent_key e) es' = ent_key e.
Proof.
  unfold complete_keys. rewrite forallb_forall. intros H Hin.
  specialize (H e Hin). unfold Datastore.complete.
  destruct (key_id (ent_key e)); [reflexivity|discriminate].
Qed.

(** Overwriting under the key of the first entity that passes [p]: the
    first entity to pass a stricter test [q] is then the one written. *)
Lemma overwrite_first (p q : Entity -> bool) (d : TokenRecord) (es : list Entity)
    (r0 : Entity) (rest : list Entity) :
  (forall e, q e = true -> p e = true) ->
  q (mkEntity (ent_key r0) d) = true ->
  List.filter p es = r0 :: rest ->
  exists rest',
    List.filter q
      (map (fun e => if Datastore.has_key (ent_key r0) e
                     then mkEntity (ent_key r0) d else e) es)
    = mkEntity (ent_key r0) d :: rest'.
Proof.
  intros Hqp Hq. induction es as [|e es IH]; simpl; [discriminate|].
  destruct (Datastore.has_key (ent_key r0) e) eqn:Hk.
  - intros _. rewrite Hq. eexists. reflexivity.
  - destruct (p e) eqn:Hp.
    + intros E. injection E as -> _.
      unfold Datastore.has_key in Hk. rewrite key_eqb_refl in Hk. discriminate.
    + intros E. destruct (q e) eqn:Hqe.
      * apply Hqp in Hqe. congruence.
      * now apply IH.
Qed.

Lemma distinct_keys_head (e : Entity) (es : list Entity) (x : Entity) :
  distinct_keys (e :: es) = true -> In x es ->
  Datastore.has_key (ent_key e) x = false.
Proof.
  simpl. rewrite andb_true_iff, negb_true_iff. intros [H _] Hin.
  destruct (Datastore.has_key (ent_key e) x) eqn:E; [|reflexivity].
  assert (existsb (Datastore.has_key (ent_key e)) es = true) as C.
  { apply existsb_exists. now exists x. }
  congruence.
Qed.

Lemma distinct_keys_filter (p : Entity -> bool) (es : list Entity) :
  distinct_keys es = true -> distinct_keys (List.filter p es) = true.
Proof.
  induction es as [|e es IH]; [reflexivity|].
  intro H. pose proof H as H'. simpl in H'.
  apply andb_true_iff in H'. destruct H' as [_ Hd].
  simpl. destruct (p e); [|now apply IH].
  simpl. rewrite (IH Hd), andb_true_r. apply negb_true_iff.
  destruct (existsb _ (List.filter p es)) eqn:E; [|reflexivity].
  apply existsb_exists in E. destruct E as [x [Hin Hk]].
  apply filter_In in Hin. destruct Hin as [Hin _].
  rewrite (distinct_keys_head e es x H Hin) in Hk. discriminate.
Qed.

Lemma map_unchanged {A : Type} (f : A -> A) (l : list A) :
  (forall x, In x l -> f x = x) -> map f l = l.
Proof.
  induction l as [|x l IH]; simpl; intro H; [reflexivity|].
  rewrite H by now left. rewrite IH; [reflexivity|].
  intros y Hy. apply H. now right.
Qed.

(** With distinct keys, overwriting under the key of the first entity that
    passes [p] changes that entity and nothing else. *)
Lemma overwrite_exact (p : Entity -> bool) (d : TokenRecord) (es : list Entity)
    (r0 : Entity) (rest : list Entity) :
  distinct_keys es = true ->
  p (mkEntity (ent_key r0) d) = true ->
  List.filter p es = r0 :: rest ->
  List.filter p
    (map (fun e => if Datastore.has_key (ent_key r0) e
                   then mkEntity (ent_key r0) d else e) es)
  = mkEntity (ent_key r0) d :: rest.
Proof.
  intros Hd Hp. induction es as [|e es IH]; simpl; [discriminate|].
  pose proof Hd as Hd'. simpl in Hd'. apply andb_true_iff in Hd'.
  destruct Hd' as [_ Hes].
  destruct (p e) eqn:Hpe.
  - intros E. injection E as -> <-.
    assert (Datastore.has_key (ent_key r0) r0 = true) as Hr0
      by apply key_eqb_refl.
    rewrite Hr0, Hp. f_equal. f_equal. apply map_unchanged.
    intros x Hx. now rewrite (distinct_keys_head r0 es x Hd Hx).
  - intros E. destruct (filter_head_in p es r0 rest E) as [Hin _].
    assert (Datastore.has_key (ent_key r0) e = false) as Hk.
    { pose proof (distinct_keys_head e es r0 Hd Hin) as Hk.
      unfold Datastore.has_key in *. now rewrite key_eqb_sym. }
    rewrite Hk, Hpe. now apply IH.
Qed.

Section StoreOrUpdate.

Context {B : Bcrypt}.

(** A call with good arguments, a hash that succeeds and a backend that does
    not fail: the callback is called without error and the record is written
    under the target key. *)
Lemma storeOrUpdate_run (this : DatastoreStore) (token uid : string) (ms : Z)
    (origin : option string) (w : World) (digest : string) :
  token <> "" -> uid <> "" -> ms <> 0%Z -> fault_free w = true ->
  bcrypt_hash token 10 (rng w) = inr digest ->
  exists w',
    storeOrUpdate this (Some token) (Some uid) (Some (Js.Int ms)) origin true w
    = (Callback None, w')
    /\ entities w'
       = Datastore.put (target_key this uid w)
           (mkRecord uid digest (clock w + ms) origin) (entities w)
    /\ clock w' = clock w
    /\ fault_free w' = true.
Proof.
  intros Ht Hu Hms Hw Hh. unfold storeOrUpdate.
  rewrite (truthy_nonempty _ Ht), (truthy_nonempty _ Hu).
  assert (Js.truthy_number (Some (Js.Int ms)) = true) as ->.
  { simpl. apply negb_true_iff. now apply Z.eqb_neq. }
  simpl negb. simpl orb. cbv iota.
  unfold hash. simpl Js.str. rewrite Hh.
  set (w1 := mkWorld (entities w) (clock w) (N.succ (rng w)) (faults w) (calls w)).
  assert (fault_free w1 = true) as Hw1 by exact Hw.
  rewrite (runQuery_ok _ w1 Hw1).
  rewrite (filter_ext _ _ (matches_uid (kind this) uid)).
  rewrite upsert_ok by now apply logged_fault_free.
  eexists. split; [reflexivity|].
  split; [|split].
  - unfold target_key, chosen_key, records_for, Date_now. simpl.
    destruct (List.filter (of_uid (kind this) uid) (entities w)); reflexivity.
  - reflexivity.
  - rewrite with_entities_fault_free.
    apply logged_fault_free. now apply logged_fault_free.
Qed.

(** The record just written is the first unexpired record of the user for
    as long as its time to live has not elapsed. *)
Lemma written_record_live (this : DatastoreStore) (d : TokenRecord) (w w' : World) :
  complete_keys (entities w) = true ->
  (clock w' < ttl d)%Z ->
  entities w' = Datastore.put (target_key this (uid d) w) d (entities w) ->
  exists rest,
    live_for this (uid d) w' = mkEntity (target_key this (uid d) w) d :: rest.
Proof.
  intros Hc Hlt He. unfold live_for, records_for. rewrite He.
  rewrite <- filter_and.
  set (q := fun e => of_uid (kind this) (uid d) e && live (clock w') e).
  assert (Hqp : forall e, q e = true -> of_uid (kind this) (uid d) e = true).
  { intros e. unfold q. rewrite andb_true_iff. tauto. }
  assert (Hq : forall k, key_kind k = kind this -> q (mkEntity k d) = true).
  { intros k Hk. unfold q, of_uid, of_kind, live. simpl. rewrite Hk.
    rewrite (proj2 (kind_eqb_eq _ _) eq_refl), String.eqb_refl. simpl.
    now apply Z.ltb_lt. }
  unfold target_key, chosen_key.
  destruct (records_for this (uid d) w) as [|r0 rest] eqn:Hr.
  - unfold Datastore.complete, Datastore.key. simpl.
    unfold Datastore.put. rewrite allocated_key_absent.
    rewrite filter_app. unfold q at 1. rewrite filter_and.
    unfold records_for in Hr. rewrite Hr. simpl.
    rewrite Hq by reflexivity. eexists. reflexivity.
  - unfold records_for in Hr.
    destruct (filter_head_in _ _ _ _ Hr) as [Hin Hp].
    rewrite (complete_key_in r0 _ _ Hc Hin).
    unfold Datastore.put. rewrite (key_present r0 _ Hin).
    apply (overwrite_first _ q d _ r0 rest Hqp); [|exact Hr].
    apply Hq. unfold of_uid, of_kind in Hp. apply andb_true_iff in Hp.
    destruct Hp as [Hp _]. now apply kind_eqb_eq in Hp.
Qed.

Context {V : BcryptVerifies B}.

(** [storeOrUpdate], then [authenticate] with the same token before the
    time to live has elapsed. *)
Lemma store_then_authenticate_within (this : DatastoreStore) (token uid : string)
    (ms : Z) (origin : option string) (w : World) (digest : string) (waited : Z) :
  token <> "" -> uid <> "" -> (0 < ms)%Z -> (waited < ms)%Z ->
  fault_free w = true -> complete_keys (entities w) = true ->
  bcrypt_hash token 10 (rng w) = inr digest ->
  let stored := storeOrUpdate this (Some token) (Some uid) (Some (Js.Int ms)) origin true w in
  fst stored = Callback None
  /\ fst (authenticate this (Some token) (Some uid) true (elapse waited (snd stored)))
     = Callback (mkAuth None true (Some (Js.or_empty origin))).
Proof.
  intros Ht Hu Hms Hwait Hw Hc Hh.
  destruct (storeOrUpdate_run this token uid ms origin w digest Ht Hu
              ltac:(lia) Hw Hh) as [w' [Hrun [He [Hclock Hw']]]].
  cbv zeta. rewrite Hrun. simpl fst. simpl snd. split; [reflexivity|].
  rewrite authenticate_run; [|assumption|assumption|exact Hw'].
  destruct (written_record_live this (mkRecord uid digest (clock w + ms) origin)
              w (elapse waited w') Hc) as [rest Hlive].
  - simpl. lia.
  - exact He.
  - simpl in Hlive. rewrite Hlive. simpl. now rewrite (compare_hash _ _ _ _ Hh).
Qed.

(** C1: after [storeOrUpdate(token, uid, msToLive, originUrl)] with non-empty
    token and uid and [msToLive > 0], an immediate [authenticate(token, uid)]
    answers [(null, true, originUrl)], and [(null, true, '')] when the
    originUrl was empty or absent. *)
Theorem store_then_authenticate (this : DatastoreStore) (token uid : string)
    (ms : Z) (origin : option string) (w : World) (digest : string) :
  token <> "" -> uid <> "" -> (0 < ms)%Z ->
  fault_free w = true -> complete_keys (entities w) = true ->
  bcrypt_hash token 10 (rng w) = inr digest ->
  let stored := storeOrUpdate this (Some token) (Some uid) (Some (Js.Int ms)) origin true w in
  fst stored = Callback None
  /\ fst (authenticate this (Some token) (Some uid) true (snd stored))
     = Callback (mkAuth None true
                   (Some match origin with
                         | Some url => url
                         | None => ""
                         end)).
Proof.
  intros Ht Hu Hms Hw Hc Hh.
  destruct (storeOrUpdate_run this token uid ms origin w digest Ht Hu
              ltac:(lia) Hw Hh) as [w' [Hrun [He [Hclock Hw']]]].
  cbv zeta. rewrite Hrun. simpl fst. simpl snd. split; [reflexivity|].
  rewrite authenticate_run; [|assumption|assumption|exact Hw'].
  destruct (written_record_live this (mkRecord uid digest (clock w + ms) origin)
              w w' Hc) as [rest Hlive].
  - simpl. lia.
  - exact He.
  - simpl in Hlive. rewrite Hlive. simpl. rewrite (compare_hash _ _ _ _ Hh).
    do 3 f_equal. destruct origin as [[|c url]|]; reflexivity.
Qed.

End StoreOrUpdate.

Lemma filter_map_stable {A : Type} (p : A -> bool) (f : A -> A) (l : list A) :
  (forall x, p (f x) = p x) ->
  List.filter p (map f l) = map f (List.filter p l).
Proof.
  intro H. induction l as [|x l IH]; simpl; [reflexivity|].
  rewrite H. destruct (p x); simpl; now rewrite IH.
Qed.

Lemma filter_all {A : Type} (p : A -> bool) (l : list A) :
  (forall x, In x l -> p x = true) -> List.filter p l = l.
Proof.
  induction l as [|x l IH]; simpl; intro H; [reflexivity|].
  rewrite H by now left. f_equal. apply IH. intros y Hy. apply H. now right.
Qed.

Lemma filter_cons_false {A : Type} (p : A -> bool) (x : A) (l : list A) :
  p x = false -> List.filter p (x :: l) = List.filter p l.
Proof.
  intro H. simpl. now rewrite H.
Qed.

Lemma filter_none {A : Type} (p : A -> bool) (l : list A) :
  (forall x, In x l -> p x = false) -> List.filter p l = [].
Proof.
  induction l as [|x l IH]; simpl; intro H; [reflexivity|].
  rewrite H by now left. apply IH. intros y Hy. apply H. now right.
Qed.

(** Overwriting under a key keeps every entity in its kind. *)
Lemma overwrite_keeps_kind (k : Key) (d : TokenRecord) (kd : Kind) (es : list Entity) :
  List.length
    (List.filter (of_kind kd)
       (map (fun e => if Datastore.has_key k e then mkEntity k d else e) es))
  = List.length (List.filter (of_kind kd) es).
Proof.
  rewrite filter_map_stable; [apply length_map|].
  intros e. destruct (Datastore.has_key k e) eqn:E; [|reflexivity].
  apply key_eqb_eq in E. unfold of_kind. simpl. now rewrite E.
Qed.

Lemma length_run (this : DatastoreStore) (w : World) :
  fault_free w = true ->
  fst (length this w) = Callback (inr (List.length (stored this w))).
Proof.
  intro H. unfold length. rewrite runQuery_ok by assumption.
  now rewrite (filter_ext _ _ (matches_kind (kind this))).
Qed.

Section OneRecordPerUser.

Context {B : Bcrypt}.

(** Storing a token for a user who has a record, whatever else the store
    holds, leaves the count of records as it was. *)
Lemma storeOrUpdate_known_user_keeps_length (this : DatastoreStore) (token uid : string)
    (ms : Z) (origin : option string) (w : World) (digest : string) :
  token <> "" -> uid <> "" -> ms <> 0%Z ->
  fault_free w = true -> well_formed w = true ->
  bcrypt_hash token 10 (rng w) = inr digest ->
  records_for this uid w <> [] ->
  let w' := snd (storeOrUpdate this (Some token) (Some uid)
      (Some (Js.Int ms)) origin true w) in
  fst (length this w') = fst (length this w).
Proof.
  intros Ht Hu Hms Hw Hwf Hh Hknown.
  destruct (storeOrUpdate_run this token uid ms origin w digest Ht Hu Hms Hw Hh)
    as [w' [Hrun [He [Hclock Hw']]]].
  cbv zeta. rewrite Hrun. simpl snd.
  rewrite !length_run by assumption. do 2 f_equal.
  unfold stored. rewrite He.
  apply andb_true_iff in Hwf. destruct Hwf as [Hc Hd].
  unfold target_key, chosen_key.
  destruct (records_for this uid w) as [|r0 rest] eqn:Hr; [congruence|].
  destruct (filter_head_in _ _ _ _ Hr) as [Hin _].
  rewrite (complete_key_in r0 _ _ Hc Hin).
  unfold Datastore.put. rewrite (key_present r0 _ Hin).
  apply overwrite_keeps_kind.
Qed.

(** C3, as the code has it: a successful [storeOrUpdate] overwrites the
    first record of the user that the query returns, expired or not, under
    its key and in its place, leaves the user's other records, if any, as
    they were, and keeps [length()] as it was; for a user without record it
    appends the record under a key no entity had.  So a store that holds at
    most one record of the user holds exactly one afterwards, and a store
    that holds several holds as many as before. *)
Theorem storeOrUpdate_one_record (this : DatastoreStore) (token uid : string)
    (ms : Z) (origin : option string) (w : World) (digest : string) :
  token <> "" -> uid <> "" -> ms <> 0%Z ->
  fault_free w = true -> well_formed w = true ->
  bcrypt_hash token 10 (rng w) = inr digest ->
  let w' :=
    snd (storeOrUpdate this (Some token) (Some uid) (Some (Js.Int ms)) origin true w) in
  let d := mkRecord uid digest (clock w + ms) origin in
  fst (storeOrUpdate this (Some token) (Some uid) (Some (Js.Int ms)) origin true w)
  = Callback None
  /\ ((List.length (records_for this uid w) <= 1)%nat ->
      List.length (records_for this uid w') = 1%nat)
  /\ (forall r0 rest,
        records_for this uid w = r0 :: rest ->
        records_for this uid w' = mkEntity (ent_key r0) d :: rest
        /\ entities w'
           = map (fun e => if Datastore.has_key (ent_key r0) e
                           then mkEntity (ent_key r0) d else e) (entities w)
        /\ fst (length this w') = fst (length this w))
  /\ (records_for this uid w = [] ->
      existsb (Datastore.has_key (target_key this uid w)) (entities w) = false
      /\ entities w' = entities w ++ [mkEntity (target_key this uid w) d]
      /\ records_for this uid w' = [mkEntity (target_key this uid w) d]).
Proof.
  intros Ht Hu Hms Hw Hwf Hh.
  pose proof (storeOrUpdate_known_user_keeps_length this token uid ms origin w
                digest Ht Hu Hms Hw Hwf Hh) as Hlen.
  destruct (storeOrUpdate_run this token uid ms origin w digest Ht Hu Hms Hw Hh)
    as [w' [Hrun [He [Hclock Hw']]]].
  cbv zeta in *. rewrite Hrun in *. simpl fst. simpl snd in *.
  apply andb_true_iff in Hwf. destruct Hwf as [Hc Hd].
  set (d := mkRecord uid digest (clock w + ms) origin) in *.
  assert (Hp : forall k, key_kind k = kind this ->
                         of_uid (kind this) uid (mkEntity k d) = true).
  { intros k Hk. unfold of_uid, of_kind. simpl. rewrite Hk.
    now rewrite (proj2 (kind_eqb_eq _ _) eq_refl), String.eqb_refl. }
  assert (Hexists : forall r0 rest,
            records_for this uid w = r0 :: rest ->
            entities w'
            = map (fun e => if Datastore.has_key (ent_key r0) e
                            then mkEntity (ent_key r0) d else e) (entities w)
            /\ records_for this uid w' = mkEntity (ent_key r0) d :: rest).
  { intros r0 rest Hr. unfold target_key, chosen_key in He. rewrite Hr in He.
    unfold records_for in Hr.
    destruct (filter_head_in _ _ _ _ Hr) as [Hin Hpr].
    rewrite (complete_key_in r0 _ _ Hc Hin) in He.
    unfold Datastore.put in He. rewrite (key_present r0 _ Hin) in He.
    split; [exact He|]. unfold records_for. rewrite He.
    apply overwrite_exact; [exact Hd| |exact Hr].
    apply Hp. unfold of_uid, of_kind in Hpr. apply andb_true_iff in Hpr.
    destruct Hpr as [Hk _]. now apply kind_eqb_eq in Hk. }
  assert (Hfresh : records_for this uid w = [] ->
            existsb (Datastore.has_key (target_key this uid w)) (entities w) = false
            /\ entities w' = entities w ++ [mkEntity (target_key this uid w) d]
            /\ records_for this uid w' = [mkEntity (target_key this uid w) d]).
  { intros Hr. unfold target_key, chosen_key in *. rewrite Hr in *.
    unfold Datastore.complete, Datastore.key in *. simpl in *.
    pose proof (allocated_key_absent (kind this) (entities w)) as Habs.
    unfold Datastore.put in He. rewrite Habs in He.
    split; [exact Habs|]. split; [exact He|].
    unfold records_for in *. rewrite He, filter_app, Hr. simpl.
    now rewrite Hp. }
  split; [reflexivity|]. split; [|split].
  - intros Hone. destruct (records_for this uid w) as [|r0 [|r1 rest]] eqn:Hr.
    + destruct (Hfresh eq_refl) as [_ [_ ->]]. reflexivity.
    + destruct (Hexists r0 [] eq_refl) as [_ ->]. reflexivity.
    + simpl in Hone. lia.
  - intros r0 rest Hr. destruct (Hexists r0 rest Hr) as [Hes Hrec].
    split; [exact Hrec|]. split; [exact Hes|].
    apply Hlen. rewrite Hr. discriminate.
  - exact Hfresh.
Qed.

(** C4, as the code has it: [storeOrUpdate] throws, leaving the world as it
    was (no hash, no backend request), exactly when the token or the uid is
    missing or empty, msToLive is missing, zero or NaN, or no callback is
    given.  A negative msToLive passes the guard. *)
Theorem storeOrUpdate_argument_guard (this : DatastoreStore) (token uid : option string)
    (ms : option Js.Number) (origin : option string) (callback : bool) (w : World) :
  (is_throw (fst (storeOrUpdate this token uid ms origin callback w)) = true
   <-> missing_or_empty token \/ missing_or_empty uid \/ missing_zero_or_NaN ms
       \/ callback = false)
  /\ (is_throw (fst (storeOrUpdate this token uid ms origin callback w)) = true ->
      storeOrUpdate this token uid ms origin callback w
      = (Throw "TokenStore:storeOrUpdate called with invalid parameters", w)).
Proof.
  assert (Ht : Js.truthy token = false <-> missing_or_empty token).
  { unfold missing_or_empty. destruct token as [t|]; simpl.
    - rewrite negb_false_iff, String.eqb_eq. split.
      + intros ->. now right.
      + intros [H|H]; [discriminate|now injection H].
    - split; [now left|reflexivity]. }
  assert (Hu : Js.truthy uid = false <-> missing_or_empty uid).
  { unfold missing_or_empty. destruct uid as [u|]; simpl.
    - rewrite negb_false_iff, String.eqb_eq. split.
      + intros ->. now right.
      + intros [H|H]; [discriminate|now injection H].
    - split; [now left|reflexivity]. }
  assert (Hm : Js.truthy_number ms = false <-> missing_zero_or_NaN ms).
  { unfold missing_zero_or_NaN. destruct ms as [[n|]|]; simpl.
    - rewrite negb_false_iff, Z.eqb_eq. split.
      + intros ->. right. now left.
      + intros [H|[H|H]]; [discriminate|now injection H|discriminate].
    - split; [right; now right|reflexivity].
    - split; [now left|reflexivity]. }
  rewrite <- Ht, <- Hu, <- Hm. unfold storeOrUpdate.
  destruct (Js.truthy token), (Js.truthy uid), (Js.truthy_number ms), callback;
    cbn [negb orb]; try (split; [split; [intuition|reflexivity]|reflexivity]).
  destruct (hash (Js.str token) 10 w) as [[err|h] w1]; simpl.
  - split; [split; [discriminate|]|discriminate].
    intros [H|[H|[H|H]]]; discriminate.
  - destruct (Datastore.runQuery _ w1) as [[err|results] w2]; simpl.
    + split; [split; [discriminate|]|discriminate].
      intros [H|[H|[H|H]]]; discriminate.
    + destruct (Datastore.upsert _ w2) as [[err|[]] w3]; simpl;
        (split; [split; [discriminate|]|discriminate]);
        intros [H|[H|[H|H]]]; discriminate.
Qed.

End OneRecordPerUser.

(** ** The constructor *)

(** C5: construction throws when called with no argument.  Called with the
    datastore alone it keeps the [undefined] kind: the default the
    documentation promises, 'passwordless-token', is never applied. *)
Theorem constructor_keeps_kind (h : Handle) :
  DatastoreStore_new 0 None None
  = Throw "A valid google cloud datastore instance has to be provided"
  /\ DatastoreStore_new 1 (Some h) None = Callback (mkStore (Some h) None)
  /\ (forall this,
        DatastoreStore_new 1 (Some h) None = Callback this ->
        kind this = None /\ kind this <> Some "passwordless-token")
  /\ (forall k this,
        DatastoreStore_new 2 (Some h) (Some k) = Callback this -> kind this = Some k).
Proof.
  unfold DatastoreStore_new. simpl.
  split; [reflexivity|]. split; [reflexivity|]. split.
  - intros this E. injection E as <-. split; [reflexivity|discriminate].
  - intros k this E. now injection E as <-.
Qed.

(** ** Counting, revoking, clearing *)

Lemma filter_length_le {A : Type} (p : A -> bool) (l : list A) :
  (List.length (List.filter p l) <= List.length l)%nat.
Proof.
  induction l as [|x l IH]; simpl; [lia|]. destruct (p x); simpl; lia.
Qed.

Lemma filter_length_lt {A : Type} (p : A -> bool) (l : list A) :
  existsb (fun x => negb (p x)) l = true ->
  (List.length (List.filter p l) < List.length l)%nat.
Proof.
  induction l as [|x l IH]; simpl; [discriminate|].
  pose proof (filter_length_le p l) as Hle. destruct (p x); simpl.
  - intro H. specialize (IH H). lia.
  - intros _. lia.
Qed.

(** C6: [length()] counts every record of the store.  The count does not
    look at the ttl or at the clock, so it is at least the number of
    unexpired records, and more than that as soon as one record has
    expired. *)
Theorem length_counts_every_record (this : DatastoreStore) (w : World) :
  fault_free w = true ->
  fst (length this w) = Callback (inr (List.length (stored this w)))
  /\ (forall later, fst (length this (elapse later w)) = fst (length this w))
  /\ (List.length (List.filter (live (clock w)) (stored this w))
      <= List.length (stored this w))%nat
  /\ (existsb (fun e => negb (live (clock w) e)) (stored this w) = true ->
      (List.length (List.filter (live (clock w)) (stored this w))
       < List.length (stored this w))%nat).
Proof.
  intro Hw. split; [now apply length_run|]. split; [|split].
  - intro later. rewrite (length_run this w Hw).
    now rewrite (length_run this (elapse later w)) by exact Hw.
  - apply filter_length_le.
  - apply filter_length_lt.
Qed.

(** What [invalidateUser] does when the backend does not fail. *)
Lemma invalidateUser_run (this : DatastoreStore) (uid : string) (w : World) :
  uid <> "" -> fault_free w = true ->
  exists w',
    invalidateUser this (Some uid) true w = (Callback None, w')
    /\ fault_free w' = true
    /\ clock w' = clock w
    /\ entities w'
       = match records_for this uid w with
         | r0 :: _ => Datastore.remove [ent_key r0] (entities w)
         | [] => entities w
         end.
Proof.
  intros Hu Hw. unfold invalidateUser.
  rewrite (truthy_nonempty _ Hu). cbn [negb orb].
  rewrite runQuery_ok by assumption. simpl Js.str.
  rewrite (filter_ext _ _ (matches_uid (kind this) uid)).
  fold (records_for this uid w).
  destruct (records_for this uid w) as [|r0 rest].
  - eexists. split; [reflexivity|]. split; [now apply logged_fault_free|].
    split; reflexivity.
  - unfold Datastore.delete. rewrite delete_all_ok by now apply logged_fault_free.
    eexists. split; [reflexivity|]. split; [|split; reflexivity].
    rewrite with_entities_fault_free.
    apply logged_fault_free. now apply logged_fault_free.
Qed.

Lemma removed_key_absent (k : Key) (es : list Entity) :
  existsb (Datastore.has_key k) (Datastore.remove [k] es) = false.
Proof.
  destruct (existsb _ _) eqn:E; [|reflexivity].
  apply existsb_exists in E. destruct E as [e [Hin Hk]].
  unfold Datastore.remove in Hin. apply filter_In in Hin.
  destruct Hin as [_ Hkeep]. simpl in Hkeep.
  unfold Datastore.has_key in Hk. rewrite Hk in Hkeep. discriminate.
Qed.

(** C7: [invalidateUser] calls back without error whether or not the user
    has a record.  With no record nothing changes; otherwise the entity
    under the key of the first record is deleted, which for a user with one
    record leaves none.  A second call succeeds as well.  A missing or empty
    uid makes it throw. *)
Theorem invalidateUser_succeeds (this : DatastoreStore) (uid : string) (w : World) :
  uid <> "" -> fault_free w = true ->
  let gone := invalidateUser this (Some uid) true w in
  fst gone = Callback None
  /\ (records_for this uid w = [] -> entities (snd gone) = entities w)
  /\ (forall r0 rest,
        records_for this uid w = r0 :: rest ->
        entities (snd gone) = Datastore.remove [ent_key r0] (entities w)
        /\ existsb (Datastore.has_key (ent_key r0)) (entities (snd gone)) = false)
  /\ (forall r0, records_for this uid w = [r0] -> records_for this uid (snd gone) = [])
  /\ fst (invalidateUser this (Some uid) true (snd gone)) = Callback None
  /\ (forall callback w0,
        invalidateUser this None callback w0
        = (Throw "TokenStore:invalidateUser called with invalid parameters", w0)
        /\ invalidateUser this (Some "") callback w0
           = (Throw "TokenStore:invalidateUser called with invalid parameters", w0)).
Proof.
  intros Hu Hw.
  destruct (invalidateUser_run this uid w Hu Hw) as [w' [Hrun [Hw' [_ He]]]].
  destruct (invalidateUser_run this uid w' Hu Hw') as [w'' [Hrun' _]].
  cbv zeta. rewrite Hrun. simpl fst. simpl snd. rewrite Hrun'.
  split; [reflexivity|]. split; [|split; [|split; [|split]]].
  - intro Hr. now rewrite Hr in He.
  - intros r0 rest Hr. rewrite Hr in He. split; [exact He|].
    rewrite He. apply removed_key_absent.
  - intros r0 Hr. rewrite Hr in He. unfold records_for in *. rewrite He.
    unfold Datastore.remove. rewrite filter_swap, Hr. simpl.
    now rewrite key_eqb_refl.
  - reflexivity.
  - intros callback w0. split; reflexivity.
Qed.

Lemma remove_all_of_kind (k : Kind) (es : list Entity) :
  List.filter (of_kind k)
    (Datastore.remove (map ent_key (List.filter (of_kind k) es)) es)
  = [].
Proof.
  apply filter_none. intros e Hin.
  unfold Datastore.remove in Hin. apply filter_In in Hin.
  destruct Hin as [Hin Hkeep]. apply negb_true_iff in Hkeep.
  destruct (of_kind k e) eqn:E; [|reflexivity].
  assert (existsb (Datastore.key_eqb (ent_key e))
            (map ent_key (List.filter (of_kind k) es)) = true) as C.
  { apply existsb_exists. exists (ent_key e). split; [|apply key_eqb_refl].
    apply in_map. apply filter_In. now split. }
  congruence.
Qed.

(** Entities of other kinds are out of [clear]'s reach. *)
Lemma remove_keeps_other_kinds (k : Kind) (es : list Entity) :
  List.filter (fun e => negb (of_kind k e))
    (Datastore.remove (map ent_key (List.filter (of_kind k) es)) es)
  = List.filter (fun e => negb (of_kind k e)) es.
Proof.
  unfold Datastore.remove. rewrite filter_swap. apply filter_all.
  intros e Hin. apply filter_In in Hin. destruct Hin as [Hin Hother].
  apply negb_true_iff in Hother. apply negb_true_iff.
  destruct (existsb _ _) eqn:E; [|reflexivity].
  apply existsb_exists in E. destruct E as [k' [Hk' Heq]].
  apply key_eqb_eq in Heq. subst k'.
  apply in_map_iff in Hk'. destruct Hk' as [e' [Hkey Hin']].
  apply filter_In in Hin'. destruct Hin' as [_ Hkind].
  unfold of_kind in *. rewrite Hkey in Hkind. congruence.
Qed.

(** C8: [clear()] deletes every record of the store, and [length()] then
    reports zero, however many records there were. *)
Theorem clear_then_length_zero (this : DatastoreStore) (w : World) :
  fault_free w = true ->
  let cleared := clear this true w in
  fst cleared = Callback None
  /\ stored this (snd cleared) = []
  /\ fst (length this (snd cleared)) = Callback (inr 0%nat)
  /\ List.filter (fun e => negb (of_kind (kind this) e)) (entities (snd cleared))
     = List.filter (fun e => negb (of_kind (kind this) e)) (entities w).
Proof.
  intro Hw. cbv zeta. unfold clear. cbn [negb].
  rewrite runQuery_ok by assumption.
  rewrite (filter_ext _ _ (matches_kind (kind this))).
  fold (stored this w).
  destruct (stored this w) as [|e0 rest] eqn:Hs.
  - simpl. split; [reflexivity|].
    assert (stored this (logged (CallRunQuery
              (Datastore.select_key (Datastore.createQuery (kind this)))) w) = [])
      as Hnil by exact Hs.
    split; [exact Hnil|]. split; [|reflexivity].
    rewrite length_run by now apply logged_fault_free. now rewrite Hnil.
  - cbn [List.length Nat.ltb Nat.leb].
    rewrite delete_all_ok by now apply logged_fault_free.
    cbn [fst snd]. split; [reflexivity|].
    assert (forall w0,
              stored this
                (Datastore.with_entities
                   (Datastore.remove (map ent_key (e0 :: rest)) (entities w)) w0)
              = []) as Hnil.
    { intro w0. rewrite <- Hs. unfold stored, Datastore.with_entities.
      cbn [entities]. apply remove_all_of_kind. }
    split; [apply Hnil|]. split.
    + rewrite length_run; [now rewrite Hnil|].
      rewrite with_entities_fault_free.
      apply logged_fault_free. now apply logged_fault_free.
    + rewrite <- Hs. unfold stored, Datastore.with_entities, logged.
      cbn [entities]. apply remove_keeps_other_kinds.
Qed.

Section Duplicates.

Context {B : Bcrypt}.

(** C10: when the store holds several records of one user, [invalidateUser]
    deletes the first the query returns and reports success; the others stay
    where they were, and [authenticate] goes on accepting the token of the
    first unexpired one among them. *)
Theorem invalidateUser_leaves_duplicates (this : DatastoreStore) (uid : string)
    (w : World) (r1 r2 : Entity) (rest : list Entity) :
  uid <> "" -> fault_free w = true -> well_formed w = true ->
  records_for this uid w = r1 :: r2 :: rest ->
  let gone := invalidateUser this (Some uid) true w in
  fst gone = Callback None
  /\ entities (snd gone) = Datastore.remove [ent_key r1] (entities w)
  /\ records_for this uid (snd gone) = r2 :: rest
  /\ live_for this uid (snd gone) = List.filter (live (clock w)) (r2 :: rest)
  /\ (forall token r rest',
        token <> "" ->
        live_for this uid (snd gone) = r :: rest' ->
        bcrypt_compare token (hashedToken (ent_data r)) = inr true ->
        fst (authenticate this (Some token) (Some uid) true (snd gone))
        = Callback (mkAuth None true (Some (Js.or_empty (originUrl (ent_data r)))))).
Proof.
  intros Hu Hw Hwf Hr.
  destruct (invalidateUser_run this uid w Hu Hw) as [w' [Hrun [Hw' [Hclock He]]]].
  cbv zeta. rewrite Hrun. simpl fst. simpl snd. rewrite Hr in He.
  apply andb_true_iff in Hwf. destruct Hwf as [_ Hd].
  assert (Hrec : records_for this uid w' = r2 :: rest).
  { unfold records_for in *. rewrite He. unfold Datastore.remove.
    rewrite filter_swap, Hr.
    pose proof (distinct_keys_filter (of_uid (kind this) uid) _ Hd) as Hd'.
    rewrite Hr in Hd'. rewrite filter_cons_false.
    2:{ simpl. now rewrite key_eqb_refl. }
    apply filter_all. intros x Hx.
    pose proof (distinct_keys_head r1 (r2 :: rest) x Hd' Hx) as Hk.
    unfold Datastore.has_key in Hk. simpl. now rewrite Hk. }
  split; [reflexivity|]. split; [exact He|]. split; [exact Hrec|].
  split.
  - unfold live_for. now rewrite Hrec, Hclock.
  - intros token r rest' Ht Hlive Hcmp.
    rewrite authenticate_run by assumption. now rewrite Hlive, Hcmp.
Qed.

End Duplicates.

(** ** What sequential use maintains

    Calls that do not overlap keep the datastore well formed and keep every
    user at one record at most: the state with several records of a user is
    out of their reach, and takes calls that interleave. *)

Lemma distinct_same_key (es : list Entity) (a b : Entity) :
  distinct_keys es = true -> In a es -> In b es -> ent_key a = ent_key b -> a = b.
Proof.
  induction es as [|e es IH]; simpl; [tauto|].
  intros Hd Ha Hb Hk. pose proof Hd as Hd'.
  apply andb_true_iff in Hd'. destruct Hd' as [_ Hes].
  destruct Ha as [->|Ha], Hb as [->|Hb].
  - reflexivity.
  - pose proof (distinct_keys_head a es b Hd Hb) as Hn.
    unfold Datastore.has_key in Hn. rewrite <- Hk, key_eqb_refl in Hn. discriminate.
  - pose proof (distinct_keys_head b es a Hd Ha) as Hn.
    unfold Datastore.has_key in Hn. rewrite Hk, key_eqb_refl in Hn. discriminate.
  - now apply IH.
Qed.

Lemma filter_map_in {A : Type} (p : A -> bool) (f : A -> A) (l : list A) :
  (forall x, In x l -> p (f x) = p x) ->
  List.filter p (map f l) = map f (List.filter p l).
Proof.
  induction l as [|x l IH]; simpl; intro H; [reflexivity|].
  rewrite H by now left.
  rewrite IH by (intros y Hy; apply H; now right).
  now destruct (p x).
Qed.

Lemma has_key_map (k : Key) (f : Entity -> Entity) (es : list Entity) :
  (forall e, ent_key (f e) = ent_key e) ->
  existsb (Datastore.has_key k) (map f es) = existsb (Datastore.has_key k) es.
Proof.
  intro H. induction es as [|e es IH]; simpl; [reflexivity|].
  unfold Datastore.has_key at 1 3. now rewrite H, IH.
Qed.

Lemma distinct_keys_map (f : Entity -> Entity) (es : list Entity) :
  (forall e, ent_key (f e) = ent_key e) ->
  distinct_keys (map f es) = distinct_keys es.
Proof.
  intro H. induction es as [|e es IH]; simpl; [reflexivity|].
  now rewrite H, has_key_map, IH.
Qed.

Lemma distinct_keys_snoc (es : list Entity) (e : Entity) :
  distinct_keys es = true ->
  existsb (Datastore.has_key (ent_key e)) es = false ->
  distinct_keys (es ++ [e]) = true.
Proof.
  induction es as [|x es IH]; simpl; [reflexivity|].
  rewrite andb_true_iff, negb_true_iff, orb_false_iff.
  intros [Hx Hd] [Hxe He]. rewrite (IH Hd He), andb_true_r.
  apply negb_true_iff. rewrite existsb_app, Hx. simpl.
  unfold Datastore.has_key in *. now rewrite key_eqb_sym, Hxe.
Qed.

Lemma overwrite_keeps_key (k : Key) (d : TokenRecord) (e : Entity) :
  ent_key (if Datastore.has_key k e then mkEntity k d else e) = ent_key e.
Proof.
  destruct (Datastore.has_key k e) eqn:E; [|reflexivity].
  apply key_eqb_eq in E. now rewrite E.
Qed.

(** The write of [storeOrUpdate] keeps a good datastore good. *)
Lemma good_put (k : Kind) (d : TokenRecord) (es : list Entity) :
  good es ->
  good (Datastore.put
          (Datastore.complete
             match List.filter (of_uid k (uid d)) es with
             | r0 :: _ => ent_key r0
             | [] => Datastore.key k
             end es)
          d es).
Proof.
  intros [Hc [Hd Hone]].
  destruct (List.filter (of_uid k (uid d)) es) as [|r0 rest] eqn:Hr.
  - unfold Datastore.complete, Datastore.key. simpl.
    unfold Datastore.put. rewrite allocated_key_absent.
    split; [|split].
    + unfold complete_keys in *. rewrite forallb_app, Hc. reflexivity.
    + apply distinct_keys_snoc; [exact Hd|apply allocated_key_absent].
    + intros k' u'. rewrite filter_app, length_app. simpl.
      destruct (of_uid k' u' _) eqn:E; simpl.
      * unfold of_uid, of_kind in E. simpl in E.
        apply andb_true_iff in E. destruct E as [Ek Eu].
        apply kind_eqb_eq in Ek. apply String.eqb_eq in Eu. subst k' u'.
        rewrite Hr. simpl. lia.
      * specialize (Hone k' u'). lia.
  - destruct (filter_head_in _ _ _ _ Hr) as [Hin Hp].
    rewrite (complete_key_in r0 _ _ Hc Hin).
    unfold Datastore.put. rewrite (key_present r0 _ Hin).
    split; [|split].
    + unfold complete_keys in *. rewrite forallb_forall in *.
      intros x Hx. apply in_map_iff in Hx. destruct Hx as [e [<- He]].
      rewrite overwrite_keeps_key. now apply Hc.
    + rewrite distinct_keys_map; [exact Hd|]. apply overwrite_keeps_key.
    + intros k' u'. rewrite filter_map_in, length_map; [apply Hone|].
      intros x Hx. destruct (Datastore.has_key (ent_key r0) x) eqn:E; [|reflexivity].
      apply key_eqb_eq in E.
      rewrite (distinct_same_key es x r0 Hd Hx Hin E).
      unfold of_uid, of_kind in *. simpl.
      apply andb_true_iff in Hp. destruct Hp as [_ Hu].
      apply String.eqb_eq in Hu. now rewrite Hu.
Qed.

(** Deleting keeps a good datastore good. *)
Lemma good_remove (ks : list Key) (es : list Entity) :
  good es -> good (Datastore.remove ks es).
Proof.
  intros [Hc [Hd Hone]]. unfold Datastore.remove. split; [|split].
  - unfold complete_keys in *. rewrite forallb_forall in *.
    intros x Hx. apply filter_In in Hx. now apply Hc.
  - now apply distinct_keys_filter.
  - intros k u. rewrite filter_swap.
    pose proof (filter_length_le
                  (fun e => negb (existsb (Datastore.key_eqb (ent_key e)) ks))
                  (List.filter (of_uid k u) es)) as Hle.
    specialize (Hone k u). lia.
Qed.

Lemma request_entities (c : Call) (w : World) :
  entities (snd (Datastore.request c w)) = entities w.
Proof.
  unfold Datastore.request. now destruct (faults w).
Qed.

(** A query answers with the matching entities, or fails; either way the
    datastore holds what it held. *)
Lemma runQuery_cases (q : Query) (w : World) :
  entities (snd (Datastore.runQuery q w)) = entities w
  /\ (fst (Datastore.runQuery q w)
      = inr (List.filter (Datastore.matches q) (entities w))
      \/ exists err, fst (Datastore.runQuery q w) = inl err).
Proof.
  unfold Datastore.runQuery.
  pose proof (request_entities (CallRunQuery q) w) as He.
  destruct (Datastore.request (CallRunQuery q) w) as [[err|] w'];
    simpl in *; split; try assumption.
  - right. now exists err.
  - left. now rewrite He.
Qed.

Lemma upsert_cases (e : Entity) (w : World) :
  entities (snd (Datastore.upsert e w)) = entities w
  \/ entities (snd (Datastore.upsert e w))
     = Datastore.put (Datastore.complete (ent_key e) (entities w)) (ent_data e)
         (entities w).
Proof.
  unfold Datastore.upsert.
  pose proof (request_entities (CallUpsert e) w) as He.
  destruct (Datastore.request (CallUpsert e) w) as [[err|] w']; simpl in *.
  - now left.
  - right. now rewrite He.
Qed.

Lemma delete_all_cases (ks : list Key) (w : World) :
  entities (snd (Datastore.delete_all ks w)) = entities w
  \/ entities (snd (Datastore.delete_all ks w)) = Datastore.remove ks (entities w).
Proof.
  unfold Datastore.delete_all.
  pose proof (request_entities (CallDelete ks) w) as He.
  destruct (Datastore.request (CallDelete ks) w) as [[err|] w']; simpl in *.
  - now left.
  - right. now rewrite He.
Qed.

Section Sequential.

Context {B : Bcrypt}.

Lemma authenticate_entities (this : DatastoreStore) (token uid : option string)
    (callback : bool) (w : World) :
  entities (snd (authenticate this token uid callback w)) = entities w.
Proof.
  unfold authenticate.
  destruct (negb (Js.truthy token) || negb (Js.truthy uid) || negb callback);
    [reflexivity|]. cbv zeta.
  match goal with |- context [Datastore.runQuery ?q w] =>
    destruct (runQuery_cases q w) as [He _];
    destruct (Datastore.runQuery q w) as [[err|results] w1]
  end; simpl in *; [exact He|].
  destruct results as [|r0 rest]; [exact He|].
  destruct (bcrypt_compare _ _) as [err|[|]]; exact He.
Qed.

Lemma storeOrUpdate_good (this : DatastoreStore) (token uid : option string)
    (ms : option Js.Number) (origin : option string) (callback : bool) (w : World) :
  good (entities w) ->
  good (entities (snd (storeOrUpdate this token uid ms origin callback w))).
Proof.
  intro Hg. unfold storeOrUpdate.
  destruct (negb (Js.truthy token) || negb (Js.truthy uid)
            || negb (Js.truthy_number ms) || negb callback); [exact Hg|].
  unfold hash.
  destruct (bcrypt_hash (Js.str token) 10 (rng w)) as [err|digest]; [exact Hg|].
  cbv zeta.
  match goal with |- context [Datastore.runQuery ?q ?w1] =>
    destruct (runQuery_cases q w1) as [He Hres];
    destruct (Datastore.runQuery q w1) as [[err|results] w2]
  end; simpl in He, Hres.
  - simpl. now rewrite He.
  - destruct Hres as [Hres|[err Hres]]; [|discriminate].
    injection Hres as Hres.
    rewrite (filter_ext _ _ (matches_uid (kind this) (Js.str uid))) in Hres.
    match goal with |- context [Datastore.upsert ?e w2] =>
      destruct (upsert_cases e w2) as [Hu|Hu];
      destruct (Datastore.upsert e w2) as [[err|[]] w3]
    end; simpl in Hu |- *; rewrite Hu, He; try exact Hg;
      rewrite Hres;
      apply (good_put (kind this)
               (mkRecord (Js.str uid) digest (Date_now
                  (mkWorld (entities w) (clock w) (N.succ (rng w)) (faults w)
                     (calls w)) + Js.int ms) origin) (entities w) Hg).
Qed.

Lemma invalidateUser_good (this : DatastoreStore) (uid : option string)
    (callback : bool) (w : World) :
  good (entities w) ->
  good (entities (snd (invalidateUser this uid callback w))).
Proof.
  intro Hg. unfold invalidateUser.
  destruct (negb (Js.truthy uid) || negb callback); [exact Hg|]. cbv zeta.
  match goal with |- context [Datastore.runQuery ?q w] =>
    destruct (runQuery_cases q w) as [He _];
    destruct (Datastore.runQuery q w) as [[err|results] w1]
  end; simpl in He; [simpl; now rewrite He|].
  destruct results as [|r0 rest]; [simpl; now rewrite He|].
  unfold Datastore.delete.
  destruct (delete_all_cases [ent_key r0] w1) as [Hd|Hd];
    destruct (Datastore.delete_all [ent_key r0] w1) as [[err|[]] w2];
    simpl in Hd |- *; rewrite Hd, He; try exact Hg; now apply good_remove.
Qed.

Lemma clear_good (this : DatastoreStore) (callback : bool) (w : World) :
  good (entities w) -> good (entities (snd (clear this callback w))).
Proof.
  intro Hg. unfold clear.
  destruct (negb callback); [exact Hg|]. cbv zeta.
  match goal with |- context [Datastore.runQuery ?q w] =>
    destruct (runQuery_cases q w) as [He _];
    destruct (Datastore.runQuery q w) as [[err|results] w1]
  end; simpl in He; [simpl; now rewrite He|].
  destruct (0 <? List.length results)%nat; [|simpl; now rewrite He].
  destruct (delete_all_cases (map ent_key results) w1) as [Hd|Hd];
    destruct (Datastore.delete_all (map ent_key results) w1) as [[err|[]] w2];
    simpl in Hd |- *; rewrite Hd, He; try exact Hg; now apply good_remove.
Qed.

Lemma length_entities (this : DatastoreStore) (w : World) :
  entities (snd (length this w)) = entities w.
Proof.
  unfold length.
  match goal with |- context [Datastore.runQuery ?q w] =>
    destruct (runQuery_cases q w) as [He _];
    destruct (Datastore.runQuery q w) as [[err|results] w1]
  end; exact He.
Qed.

(** Every world that calls of the store reach from an empty datastore, one
    call after the other, is well formed and holds at most one record per
    user. *)
Theorem sequential_use_keeps_one_record (w : World) :
  reachable w ->
  well_formed w = true
  /\ forall this u, (List.length (records_for this u w) <= 1)%nat.
Proof.
  intro Hreach.
  assert (good (entities w)) as [Hc [Hd Hone]].
  { induction Hreach as [now salt fs|w w' _ IH Hstep].
    - split; [reflexivity|]. split; [reflexivity|]. intros k u. simpl. lia.
    - destruct Hstep.
      + now rewrite authenticate_entities.
      + now apply storeOrUpdate_good.
      + now apply invalidateUser_good.
      + now apply clear_good.
      + now rewrite length_entities.
      + exact IH. }
  split.
  - unfold well_formed. now rewrite Hc, Hd.
  - intros this u. apply Hone.
Qed.

End Sequential.

(** ** The store at work

    The theorems above, applied to the toy bcrypt and to small worlds. *)

Lemma toy_verifies : BcryptVerifies ToyBcrypt.
Proof.
  intros data rounds salt digest H. simpl in *. unfold toy_hash in H.
  injection H as <-. simpl. now rewrite String.eqb_refl.
Qed.

Lemma store_then_authenticate_witness :
  fst (storeOrUpdate (B := ToyBcrypt) test_store (Some "abc123") (Some "u1")
         (Some (Js.Int 1000%Z)) (Some "/dashboard") true empty_world)
  = Callback None
  /\ fst (authenticate (B := ToyBcrypt) test_store (Some "abc123") (Some "u1") true
            (snd (storeOrUpdate (B := ToyBcrypt) test_store (Some "abc123") (Some "u1")
                    (Some (Js.Int 1000%Z)) (Some "/dashboard") true empty_world)))
     = Callback (mkAuth None true (Some "/dashboard")).
Proof.
  eapply (store_then_authenticate (B := ToyBcrypt) (V := toy_verifies)
            test_store "abc123" "u1" 1000 (Some "/dashboard") empty_world).
  - discriminate.
  - discriminate.
  - reflexivity.
  - reflexivity.
  - reflexivity.
  - reflexivity.
Defined.

Lemma authenticate_rejects_alike_witness :
  fst (authenticate (B := ToyBcrypt) test_store (Some "abc123") (Some "u1") true
         empty_world) = Callback rejected
  /\ fst (authenticate (B := ToyBcrypt) test_store (Some "abc123") (Some "u1") true
            expired_world) = Callback rejected
  /\ fst (authenticate (B := ToyBcrypt) test_store (Some "wrong") (Some "u1") true
            one_world) = Callback rejected.
Proof.
  split; [|split].
  - exact (proj1 (authenticate_rejects_alike (B := ToyBcrypt) test_store "abc123" "u1"
                    empty_world ltac:(discriminate) ltac:(discriminate) eq_refl)
             eq_refl).
  - exact (proj1 (proj2 (authenticate_rejects_alike (B := ToyBcrypt) test_store
                           "abc123" "u1" expired_world
                           ltac:(discriminate) ltac:(discriminate) eq_refl))
             eq_refl).
  - exact (proj2 (proj2 (authenticate_rejects_alike (B := ToyBcrypt) test_store
                           "wrong" "u1" one_world
                           ltac:(discriminate) ltac:(discriminate) eq_refl))
             _ _ eq_refl eq_refl).
Defined.

Lemma authenticate_fails_closed_witness :
  fst (authenticate (B := ToyBcrypt) test_store (Some "abc123") (Some "u1") true
         malformed_world)
  = Callback (mkAuth (Some "Not a valid BCrypt hash.") false None)
  /\ fst (authenticate (B := ToyBcrypt) test_store (Some "abc123") (Some "u1") true
            failing_world)
     = Callback (mkAuth (Some "UNAVAILABLE") false None).
Proof.
  split.
  - exact (proj1 (authenticate_fails_closed (B := ToyBcrypt) test_store "abc123" "u1"
                    malformed_world ltac:(discriminate) ltac:(discriminate))
             _ _ _ eq_refl eq_refl eq_refl).
  - exact (proj1 (proj2 (authenticate_fails_closed (B := ToyBcrypt) test_store
                           "abc123" "u1" failing_world
                           ltac:(discriminate) ltac:(discriminate)))
             _ _ eq_refl).
Defined.

Lemma storeOrUpdate_one_record_witness :
  records_for test_store "u1"
    (snd (storeOrUpdate (B := ToyBcrypt) test_store (Some "fresh") (Some "u1")
            (Some (Js.Int 500%Z)) None true expired_world))
  = [mkEntity (mkKey (Some "passwordless-test") (Some 1%Z))
       (mkRecord "u1" (String (Ascii.ascii_of_N 0) "fresh") 1500 None)]
  /\ records_for test_store "u1"
       (snd (storeOrUpdate (B := ToyBcrypt) test_store (Some "fresh") (Some "u1")
               (Some (Js.Int 500%Z)) None true duplicate_world))
     = [mkEntity (mkKey (Some "passwordless-test") (Some 1%Z))
          (mkRecord "u1" (String (Ascii.ascii_of_N 0) "fresh") 1500 None);
        test_record "u1" "$second" 3000 (Some "/late") 3].
Proof.
  pose proof (storeOrUpdate_one_record (B := ToyBcrypt) test_store "fresh" "u1" 500
                None expired_world _ ltac:(discriminate) ltac:(discriminate)
                ltac:(discriminate) eq_refl eq_refl eq_refl) as H1.
  pose proof (storeOrUpdate_one_record (B := ToyBcrypt) test_store "fresh" "u1" 500
                None duplicate_world _ ltac:(discriminate) ltac:(discriminate)
                ltac:(discriminate) eq_refl eq_refl eq_refl) as H2.
  cbv zeta in H1, H2.
  destruct H1 as [_ [_ [H1 _]]]. destruct H2 as [_ [_ [H2 _]]].
  destruct (H1 _ _ eq_refl) as [Hone _]. destruct (H2 _ _ eq_refl) as [Hmany _].
  split; [exact Hone|exact Hmany].
Defined.

(** Against C3 as stated: a store that holds two records of a user holds two
    after [storeOrUpdate] as well. *)
Lemma storeOrUpdate_keeps_duplicates :
  well_formed duplicate_world = true
  /\ fst (storeOrUpdate (B := ToyBcrypt) test_store (Some "fresh") (Some "u1")
            (Some (Js.Int 500%Z)) None true duplicate_world)
     = Callback None
  /\ List.length
       (records_for test_store "u1"
          (snd (storeOrUpdate (B := ToyBcrypt) test_store (Some "fresh") (Some "u1")
                  (Some (Js.Int 500%Z)) None true duplicate_world)))
     = 2%nat.
Proof.
  split; [|split]; vm_compute; reflexivity.
Qed.

(** Against C4 as stated: a negative msToLive does not make [storeOrUpdate]
    throw; the record is hashed and written, already expired. *)
Lemma storeOrUpdate_accepts_negative_msToLive :
  (-1 <=? 0)%Z = true
  /\ fst (storeOrUpdate (B := ToyBcrypt) test_store (Some "abc123") (Some "u1")
            (Some (Js.Int (-1)%Z)) None true empty_world)
     = Callback None
  /\ entities (snd (storeOrUpdate (B := ToyBcrypt) test_store (Some "abc123") (Some "u1")
                      (Some (Js.Int (-1)%Z)) None true empty_world))
     = [test_record "u1" (String (Ascii.ascii_of_N 0) "abc123") 999 None 1]
  /\ List.length
       (calls (snd (storeOrUpdate (B := ToyBcrypt) test_store (Some "abc123") (Some "u1")
                      (Some (Js.Int (-1)%Z)) None true empty_world)))
     = 2%nat.
Proof.
  repeat split; vm_compute; reflexivity.
Qed.

(** NaN is a Number that the guard refuses like zero. *)
Example storeOrUpdate_refuses_NaN :
  storeOrUpdate (B := ToyBcrypt) test_store (Some "abc123") (Some "u1")
    (Some Js.NaN) None true empty_world
  = (Throw "TokenStore:storeOrUpdate called with invalid parameters", empty_world).
Proof.
  reflexivity.
Qed.

Lemma length_counts_every_record_witness :
  fst (length test_store expired_world) = Callback (inr 1%nat)
  /\ List.length (List.filter (live (clock expired_world)) (stored test_store expired_world))
     = 0%nat.
Proof.
  split; [|reflexivity].
  apply (length_counts_every_record test_store expired_world). reflexivity.
Defined.

Lemma invalidateUser_succeeds_witness :
  fst (invalidateUser test_store (Some "u1") true one_world) = Callback None
  /\ entities (snd (invalidateUser test_store (Some "u1") true one_world)) = []
  /\ fst (invalidateUser test_store (Some "u1") true
            (snd (invalidateUser test_store (Some "u1") true one_world)))
     = Callback None.
Proof.
  pose proof (invalidateUser_succeeds test_store "u1" one_world
                ltac:(discriminate) eq_refl) as H.
  cbv zeta in H. destruct H as [H1 [_ [H3 [_ [H5 _]]]]].
  split; [exact H1|]. split; [|exact H5].
  destruct (H3 _ _ eq_refl) as [-> _]. reflexivity.
Defined.

Lemma clear_then_length_zero_witness :
  fst (length test_store duplicate_world) = Callback (inr 3%nat)
  /\ fst (clear test_store true duplicate_world) = Callback None
  /\ fst (length test_store (snd (clear test_store true duplicate_world)))
     = Callback (inr 0%nat).
Proof.
  split; [reflexivity|].
  pose proof (clear_then_length_zero test_store duplicate_world eq_refl) as H.
  cbv zeta in H. destruct H as [H1 [_ [H3 _]]]. split; assumption.
Defined.

Lemma invalidateUser_leaves_duplicates_witness :
  fst (invalidateUser test_store (Some "u1") true duplicate_world) = Callback None
  /\ records_for test_store "u1"
       (snd (invalidateUser test_store (Some "u1") true duplicate_world))
     = [test_record "u1" "$second" 3000 (Some "/late") 3]
  /\ fst (authenticate (B := ToyBcrypt) test_store (Some "second") (Some "u1") true
            (snd (invalidateUser test_store (Some "u1") true duplicate_world)))
     = Callback (mkAuth None true (Some "/late")).
Proof.
  pose proof (invalidateUser_leaves_duplicates (B := ToyBcrypt) test_store "u1"
                duplicate_world _ _ _ ltac:(discriminate) eq_refl eq_refl eq_refl) as H.
  cbv zeta in H. destruct H as [H1 [_ [H3 [_ H5]]]].
  split; [exact H1|]. split; [exact H3|].
  apply (H5 "second" (test_record "u1" "$second" 3000 (Some "/late") 3) []);
    [discriminate|reflexivity|reflexivity].
Defined.

(** The scenario of the specification: a token stored for one second is
    accepted at once and turned down 1100 ms later, while [length()] still
    counts its record. *)
Example stored_token_expires :
  let stored :=
    snd (storeOrUpdate (B := ToyBcrypt) test_store (Some "abc123") (Some "u1")
           (Some (Js.Int 1000%Z)) (Some "/dashboard") true empty_world) in
  fst (authenticate (B := ToyBcrypt) test_store (Some "abc123") (Some "u1") true stored)
  = Callback (mkAuth None true (Some "/dashboard"))
  /\ fst (authenticate (B := ToyBcrypt) test_store (Some "abc123") (Some "u1") true
            (elapse 1100 stored))
     = Callback rejected
  /\ fst (length test_store (elapse 1100 stored)) = Callback (inr 1%nat).
Proof.
  cbv zeta. repeat split; vm_compute; reflexivity.
Qed.

(** A second token for the same user replaces the first. *)
Example second_token_replaces_first :
  let first :=
    snd (storeOrUpdate (B := ToyBcrypt) test_store (Some "t1") (Some "u1")
           (Some (Js.Int 1000%Z)) (Some "/a") true empty_world) in
  let second :=
    snd (storeOrUpdate (B := ToyBcrypt) test_store (Some "t2") (Some "u1")
           (Some (Js.Int 1000%Z)) (Some "/a") true first) in
  fst (authenticate (B := ToyBcrypt) test_store (Some "t1") (Some "u1") true second)
  = Callback rejected
  /\ fst (authenticate (B := ToyBcrypt) test_store (Some "t2") (Some "u1") true second)
     = Callback (mkAuth None true (Some "/a"))
  /\ fst (length test_store first) = fst (length test_store second).
Proof.
  cbv zeta. repeat split; vm_compute; reflexivity.
Qed.

(** How a user comes to have two records: two calls of [storeOrUpdate] for a
    new user overlap, both queries are answered before either write, and
    each call upserts under an incomplete key of its own. *)
Example overlapping_calls_leave_two_records :
  let first := mkEntity (Datastore.key (kind test_store))
                 (mkRecord "u1" "$first" 2000 None) in
  let second := mkEntity (Datastore.key (kind test_store))
                  (mkRecord "u1" "$second" 3000 (Some "/late")) in
  let w := snd (Datastore.upsert second (snd (Datastore.upsert first empty_world))) in
  records_for test_store "u1" w
  = [test_record "u1" "$first" 2000 None 1;
     test_record "u1" "$second" 3000 (Some "/late") 2]
  /\ well_formed w = true.
Proof.
  cbv zeta. split; vm_compute; reflexivity.
Qed.

(** ** More on [authenticate] *)

Lemma truthy_false_iff (v : option string) :
  Js.truthy v = false <-> missing_or_empty v.
Proof.
  unfold missing_or_empty. destruct v as [s|]; simpl.
  - rewrite negb_false_iff, String.eqb_eq. split.
    + intros ->. now right.
    + intros [H|H]; [discriminate|now injection H].
  - split; [now left|reflexivity].
Qed.

Lemma request_calls (c : Call) (w : World) :
  calls (snd (Datastore.request c w)) = calls w ++ [c].
Proof.
  unfold Datastore.request. now destruct (faults w).
Qed.

Lemma request_clock (c : Call) (w : World) :
  clock (snd (Datastore.request c w)) = clock w.
Proof.
  unfold Datastore.request. now destruct (faults w).
Qed.

Lemma request_fault_free (c : Call) (w : World) :
  fault_free w = true -> fault_free (snd (Datastore.request c w)) = true.
Proof.
  intro H. rewrite request_ok by assumption. now apply logged_fault_free.
Qed.

Section AuthenticateMore.

Context {B : Bcrypt}.

(** The world after [authenticate]: untouched when it throws, and otherwise
    the world after its one query. *)
Lemma authenticate_world (this : DatastoreStore) (token uid : option string)
    (callback : bool) (w : World) :
  snd (authenticate this token uid callback w) = w
  \/ exists q, snd (authenticate this token uid callback w)
               = snd (Datastore.request (CallRunQuery q) w).
Proof.
  unfold authenticate.
  destruct (negb (Js.truthy token) || negb (Js.truthy uid) || negb callback);
    [now left|]. right. cbv zeta.
  match goal with |- context [Datastore.runQuery ?q w] => exists q end.
  unfold Datastore.runQuery.
  destruct (Datastore.request _ w) as [[err|] w1]; simpl; [reflexivity|].
  destruct (List.filter _ (entities w1)) as [|r0 rest]; [reflexivity|].
  destruct (bcrypt_compare _ _) as [err|[|]]; reflexivity.
Qed.

(** The verdict is a function of what the datastore holds and of the clock,
    as long as the backend answers. *)
Lemma authenticate_verdict_depends (this : DatastoreStore) (token uid : option string)
    (callback : bool) (w w' : World) :
  fault_free w = true -> fault_free w' = true ->
  entities w' = entities w -> clock w' = clock w ->
  fst (authenticate this token uid callback w')
  = fst (authenticate this token uid callback w).
Proof.
  intros Hw Hw' He Hc. unfold authenticate.
  destruct (negb (Js.truthy token) || negb (Js.truthy uid) || negb callback);
    [reflexivity|]. cbv zeta.
  rewrite !runQuery_ok by assumption. unfold Date_now. rewrite He, Hc.
  destruct (List.filter _ (entities w)) as [|r0 rest]; [reflexivity|].
  destruct (bcrypt_compare _ _) as [err|[|]]; reflexivity.
Qed.

(** [authenticate] throws, leaving the world as it was, exactly when the
    token or the uid is missing or empty or no callback is given. *)
Theorem authenticate_argument_guard (this : DatastoreStore) (token uid : option string)
    (callback : bool) (w : World) :
  (is_throw (fst (authenticate this token uid callback w)) = true
   <-> missing_or_empty token \/ missing_or_empty uid \/ callback = false)
  /\ (is_throw (fst (authenticate this token uid callback w)) = true ->
      authenticate this token uid callback w
      = (Throw "TokenStore:authenticate called with invalid parameters", w)).
Proof.
  rewrite <- !truthy_false_iff. unfold authenticate.
  destruct (Js.truthy token), (Js.truthy uid), callback;
    cbn [negb orb]; try (split; [split; [intuition|reflexivity]|reflexivity]).
  cbv zeta.
  destruct (Datastore.runQuery _ w) as [[err|results] w1]; simpl.
  - split; [split; [discriminate|]|discriminate].
    intros [H|[H|H]]; discriminate.
  - destruct results as [|r0 rest]; simpl.
    + split; [split; [discriminate|]|discriminate].
      intros [H|[H|H]]; discriminate.
    + destruct (bcrypt_compare _ _) as [err|[|]]; simpl;
        (split; [split; [discriminate|]|discriminate]);
        intros [H|[H|H]]; discriminate.
Qed.

(** [authenticate] only reads: the datastore and the clock are as before,
    whatever the arguments and the backend do; so a token is not used up by
    being accepted, and asking again gives the same answer. *)
Theorem authenticate_does_not_consume (this : DatastoreStore) (token uid : option string)
    (callback : bool) (w : World) :
  entities (snd (authenticate this token uid callback w)) = entities w
  /\ clock (snd (authenticate this token uid callback w)) = clock w
  /\ (fault_free w = true ->
      fst (authenticate this token uid callback
             (snd (authenticate this token uid callback w)))
      = fst (authenticate this token uid callback w)).
Proof.
  assert (He : entities (snd (authenticate this token uid callback w)) = entities w).
  { destruct (authenticate_world this token uid callback w) as [->|[q ->]];
      [reflexivity|apply request_entities]. }
  assert (Hc : clock (snd (authenticate this token uid callback w)) = clock w).
  { destruct (authenticate_world this token uid callback w) as [->|[q ->]];
      [reflexivity|apply request_clock]. }
  split; [exact He|]. split; [exact Hc|].
  intro Hw. apply authenticate_verdict_depends; try assumption.
  destruct (authenticate_world this token uid callback w) as [->|[q ->]];
    [assumption|now apply request_fault_free].
Qed.

(** [authenticate] says [valid = true] only on the strength of a stored
    record of the store's kind and of that uid whose ttl lies ahead and whose
    hash bcrypt verified against the token; the referrer is that record's
    originUrl, or the empty string. *)
Theorem authenticate_accepts_only_verified (this : DatastoreStore)
    (token uid : option string) (callback : bool) (w : World) (r : AuthResult) :
  fst (authenticate this token uid callback w) = Callback r ->
  auth_valid r = true ->
  exists e,
    In e (entities w)
    /\ of_uid (kind this) (Js.str uid) e = true
    /\ (clock w < ttl (ent_data e))%Z
    /\ bcrypt_compare (Js.str token) (hashedToken (ent_data e)) = inr true
    /\ r = mkAuth None true (Some (Js.or_empty (originUrl (ent_data e)))).
Proof.
  unfold authenticate.
  destruct (negb (Js.truthy token) || negb (Js.truthy uid) || negb callback);
    [discriminate|]. cbv zeta.
  match goal with |- context [Datastore.runQuery ?q w] =>
    destruct (runQuery_cases q w) as [_ Hres];
    destruct (Datastore.runQuery q w) as [[err|results] w1]
  end; simpl in Hres |- *.
  - intros E. injection E as <-. discriminate.
  - destruct Hres as [Hres|[err Hres]]; [|discriminate].
    injection Hres as Hres.
    destruct results as [|r0 rest].
    + intros E. injection E as <-. discriminate.
    + symmetry in Hres. destruct (filter_head_in _ _ _ _ Hres) as [Hin Hm].
      unfold Date_now in Hm. rewrite matches_uid_live in Hm.
      apply andb_true_iff in Hm. destruct Hm as [Hu Hl].
      destruct (bcrypt_compare _ _) as [err|[|]] eqn:Hcmp;
        intros E; injection E as <-; try discriminate.
      intros _. exists r0. repeat split; try assumption.
      now apply Z.ltb_lt.
Qed.

End AuthenticateMore.

(** ** More on [storeOrUpdate] *)

Lemma runQuery_calls (q : Query) (w : World) :
  calls (snd (Datastore.runQuery q w)) = calls w ++ [CallRunQuery q].
Proof.
  unfold Datastore.runQuery.
  pose proof (request_calls (CallRunQuery q) w) as H.
  destruct (Datastore.request _ w) as [[err|] w1]; exact H.
Qed.

Lemma upsert_calls (e : Entity) (w : World) :
  calls (snd (Datastore.upsert e w)) = calls w ++ [CallUpsert e].
Proof.
  unfold Datastore.upsert.
  pose proof (request_calls (CallUpsert e) w) as H.
  destruct (Datastore.request _ w) as [[err|] w1]; exact H.
Qed.

Lemma delete_all_calls (ks : list Key) (w : World) :
  calls (snd (Datastore.delete_all ks w)) = calls w ++ [CallDelete ks].
Proof.
  unfold Datastore.delete_all.
  pose proof (request_calls (CallDelete ks) w) as H.
  destruct (Datastore.request _ w) as [[err|] w1]; exact H.
Qed.

(** A record written for one user is no record of another. *)
Lemma written_is_other (k0 k : Kind) (u : string) (key : Key) (d : TokenRecord) :
  key_kind key = k0 -> k <> k0 \/ u <> uid d ->
  of_uid k u (mkEntity key d) = false.
Proof.
  intros Hk Hdiff. unfold of_uid, of_kind. simpl. rewrite Hk.
  destruct (Datastore.kind_eqb k0 k) eqn:Ek; [|reflexivity].
  destruct (uid d =? u) eqn:Eu; [|reflexivity].
  apply kind_eqb_eq in Ek. apply String.eqb_eq in Eu.
  destruct Hdiff as [H|H]; congruence.
Qed.

(** The write of [storeOrUpdate] leaves the records of every other user, and
    of every other kind, as they were. *)
Lemma put_leaves_others (k0 : Kind) (d : TokenRecord) (es : list Entity)
    (k : Kind) (u : string) :
  complete_keys es = true -> distinct_keys es = true ->
  k <> k0 \/ u <> uid d ->
  List.filter (of_uid k u)
    (Datastore.put
       (Datastore.complete
          match List.filter (of_uid k0 (uid d)) es with
          | r0 :: _ => ent_key r0
          | [] => Datastore.key k0
          end es)
       d es)
  = List.filter (of_uid k u) es.
Proof.
  intros Hc Hd Hdiff.
  destruct (List.filter (of_uid k0 (uid d)) es) as [|r0 rest] eqn:Hr.
  - unfold Datastore.complete, Datastore.key. simpl.
    unfold Datastore.put. rewrite allocated_key_absent, filter_app. simpl.
    rewrite written_is_other with (k0 := k0) by (reflexivity || assumption).
    apply app_nil_r.
  - destruct (filter_head_in _ _ _ _ Hr) as [Hin Hp].
    rewrite (complete_key_in r0 _ _ Hc Hin).
    unfold Datastore.put. rewrite (key_present r0 _ Hin).
    assert (Hk0 : key_kind (ent_key r0) = k0).
    { unfold of_uid, of_kind in Hp. apply andb_true_iff in Hp.
      destruct Hp as [Hp _]. now apply kind_eqb_eq in Hp. }
    assert (Hr0 : of_uid k u r0 = false).
    { destruct r0 as [key0 d0]. simpl in *.
      apply written_is_other with (k0 := k0); [exact Hk0|].
      unfold of_uid in Hp. simpl in Hp. apply andb_true_iff in Hp.
      destruct Hp as [_ Hu]. apply String.eqb_eq in Hu. now rewrite Hu. }
    rewrite filter_map_in.
    + apply map_unchanged. intros x Hx. apply filter_In in Hx.
      destruct Hx as [Hx Hpx].
      destruct (Datastore.has_key (ent_key r0) x) eqn:E; [|reflexivity].
      apply key_eqb_eq in E.
      rewrite (distinct_same_key es x r0 Hd Hx Hin E) in Hpx. congruence.
    + intros x Hx. destruct (Datastore.has_key (ent_key r0) x) eqn:E; [|reflexivity].
      apply key_eqb_eq in E. rewrite (distinct_same_key es x r0 Hd Hx Hin E).
      rewrite Hr0. now apply written_is_other with (k0 := k0).
Qed.

Section StoreOrUpdateMore.

Context {B : Bcrypt}.

(** What [storeOrUpdate] can do to the datastore, whatever the arguments,
    bcrypt and the backend do: nothing, or the one write for the uid. *)
Lemma storeOrUpdate_entities (this : DatastoreStore) (token uid : option string)
    (ms : option Js.Number) (origin : option string) (callback : bool) (w : World) :
  entities (snd (storeOrUpdate this token uid ms origin callback w)) = entities w
  \/ exists d,
       record_of d (Js.str uid)
       /\ entities (snd (storeOrUpdate this token uid ms origin callback w))
          = Datastore.put
              (Datastore.complete
                 match List.filter (of_uid (kind this) (Js.str uid)) (entities w) with
                 | r0 :: _ => ent_key r0
                 | [] => Datastore.key (kind this)
                 end (entities w))
              d (entities w).
Proof.
  unfold storeOrUpdate.
  destruct (negb (Js.truthy token) || negb (Js.truthy uid)
            || negb (Js.truthy_number ms) || negb callback); [now left|].
  unfold hash.
  destruct (bcrypt_hash (Js.str token) 10 (rng w)) as [err|digest]; [now left|].
  cbv zeta.
  match goal with |- context [Datastore.runQuery ?q ?w1] =>
    destruct (runQuery_cases q w1) as [He Hres];
    destruct (Datastore.runQuery q w1) as [[err|results] w2]
  end; simpl in He, Hres.
  - left. exact He.
  - destruct Hres as [Hres|[err Hres]]; [|discriminate].
    injection Hres as Hres.
    rewrite (filter_ext _ _ (matches_uid (kind this) (Js.str uid))) in Hres.
    match goal with |- context [Datastore.upsert ?e w2] =>
      destruct (upsert_cases e w2) as [Hu|Hu];
      destruct (Datastore.upsert e w2) as [[err|[]] w3]
    end; simpl in Hu |- *; rewrite Hu, He; try (now left);
      right; eexists; (split; [|rewrite Hres; reflexivity]); reflexivity.
Qed.

End StoreOrUpdateMore.

Section StoreOrUpdateFailures.

Context {B : Bcrypt}.

(** Whatever the arguments, bcrypt and the backend do, [storeOrUpdate]
    leaves the records of every other user of the store, and the records of
    every other kind, exactly as they were. *)
Theorem storeOrUpdate_leaves_other_users (this : DatastoreStore)
    (token uid : option string) (ms : option Js.Number) (origin : option string)
    (callback : bool) (w : World) (k : Kind) (u : string) :
  well_formed w = true ->
  k <> kind this \/ u <> Js.str uid ->
  List.filter (of_uid k u)
    (entities (snd (storeOrUpdate this token uid ms origin callback w)))
  = List.filter (of_uid k u) (entities w).
Proof.
  intros Hwf Hdiff. apply andb_true_iff in Hwf. destruct Hwf as [Hc Hd].
  destruct (storeOrUpdate_entities this token uid ms origin callback w)
    as [->|[d [Hu ->]]]; [reflexivity|].
  unfold record_of in Hu. rewrite <- Hu in *.
  now apply put_leaves_others.
Qed.

(** When bcrypt cannot hash the token, the callback gets bcrypt's error;
    the backend is not asked anything and nothing is written. *)
Theorem storeOrUpdate_hash_failure (this : DatastoreStore) (token uid : string)
    (ms : Z) (origin : option string) (w : World) (err : Error) :
  token <> "" -> uid <> "" -> ms <> 0%Z ->
  bcrypt_hash token 10 (rng w) = inl err ->
  fst (storeOrUpdate this (Some token) (Some uid) (Some (Js.Int ms)) origin true w)
  = Callback (Some err)
  /\ entities (snd (storeOrUpdate this (Some token) (Some uid)
      (Some (Js.Int ms)) origin true w))
     = entities w
  /\ calls (snd (storeOrUpdate this (Some token) (Some uid) (Some (Js.Int ms)) origin true w))
     = calls w.
Proof.
  intros Ht Hu Hms Hh. unfold storeOrUpdate.
  rewrite (truthy_nonempty _ Ht), (truthy_nonempty _ Hu).
  assert (Js.truthy_number (Some (Js.Int ms)) = true) as ->.
  { simpl. apply negb_true_iff. now apply Z.eqb_neq. }
  cbn [negb orb]. unfold hash. simpl Js.str. rewrite Hh.
  repeat split.
Qed.

(** When the backend rejects the query, the callback gets that error and no
    write is attempted; when it answers the query and rejects the upsert,
    the callback gets that error.  Either way the datastore holds what it
    held, and the failed request is not repeated. *)
Theorem storeOrUpdate_backend_failure (this : DatastoreStore) (token uid : string)
    (ms : Z) (origin : option string) (w : World) (digest : string) :
  token <> "" -> uid <> "" -> ms <> 0%Z ->
  bcrypt_hash token 10 (rng w) = inr digest ->
  let result := storeOrUpdate this (Some token) (Some uid) (Some (Js.Int ms)) origin true w in
  (forall err fs,
     faults w = Some err :: fs ->
     fst result = Callback (Some err)
     /\ entities (snd result) = entities w
     /\ exists q, calls (snd result) = calls w ++ [CallRunQuery q])
  /\ (forall err fs,
        faults w = None :: Some err :: fs ->
        fst result = Callback (Some err)
        /\ entities (snd result) = entities w
        /\ exists q e, calls (snd result) = calls w ++ [CallRunQuery q; CallUpsert e]).
Proof.
  intros Ht Hu Hms Hh. cbv zeta. unfold storeOrUpdate.
  rewrite (truthy_nonempty _ Ht), (truthy_nonempty _ Hu).
  assert (Js.truthy_number (Some (Js.Int ms)) = true) as ->.
  { simpl. apply negb_true_iff. now apply Z.eqb_neq. }
  cbn [negb orb]. unfold hash. simpl Js.str. rewrite Hh.
  unfold Datastore.runQuery, Datastore.upsert, Datastore.request. simpl.
  split; intros err fs Hf; rewrite Hf; simpl.
  - split; [reflexivity|]. split; [reflexivity|]. eexists. reflexivity.
  - split; [reflexivity|]. split; [reflexivity|].
    rewrite <- app_assoc. simpl. do 2 eexists. reflexivity.
Qed.

(** A token stored for a user who has no record adds one record to the
    store: [length()] afterwards is one more than before. *)
Theorem storeOrUpdate_new_user_adds_one (this : DatastoreStore) (token uid : string)
    (ms : Z) (origin : option string) (w : World) (digest : string) :
  token <> "" -> uid <> "" -> ms <> 0%Z -> fault_free w = true ->
  bcrypt_hash token 10 (rng w) = inr digest ->
  records_for this uid w = [] ->
  let w' := snd (storeOrUpdate this (Some token) (Some uid)
      (Some (Js.Int ms)) origin true w) in
  fst (length this w) = Callback (inr (List.length (stored this w)))
  /\ fst (length this w') = Callback (inr (S (List.length (stored this w)))).
Proof.
  intros Ht Hu Hms Hw Hh Hnone.
  destruct (storeOrUpdate_run this token uid ms origin w digest Ht Hu Hms Hw Hh)
    as [w' [Hrun [He [_ Hw']]]].
  cbv zeta. rewrite Hrun. simpl snd. rewrite !length_run by assumption.
  split; [reflexivity|]. do 2 f_equal.
  unfold stored. rewrite He. unfold target_key, chosen_key. rewrite Hnone.
  unfold Datastore.complete, Datastore.key. simpl.
  unfold Datastore.put. rewrite allocated_key_absent, filter_app, length_app.
  simpl. unfold of_kind at 2. simpl.
  rewrite (proj2 (kind_eqb_eq _ _) eq_refl). simpl. lia.
Qed.

End StoreOrUpdateFailures.

(** ** More on [invalidateUser], [clear] and [length] *)

(** What [invalidateUser] can do to the datastore: nothing, or delete the
    entity under the key of the first record of the user. *)
Lemma invalidateUser_entities (this : DatastoreStore) (uid : option string)
    (callback : bool) (w : World) :
  entities (snd (invalidateUser this uid callback w)) = entities w
  \/ exists r0 rest,
       List.filter (of_uid (kind this) (Js.str uid)) (entities w) = r0 :: rest
       /\ entities (snd (invalidateUser this uid callback w))
          = Datastore.remove [ent_key r0] (entities w).
Proof.
  unfold invalidateUser.
  destruct (negb (Js.truthy uid) || negb callback); [now left|]. cbv zeta.
  match goal with |- context [Datastore.runQuery ?q w] =>
    destruct (runQuery_cases q w) as [He Hres];
    destruct (Datastore.runQuery q w) as [[err|results] w1]
  end; simpl in He, Hres; [now left|].
  destruct Hres as [Hres|[err Hres]]; [|discriminate].
  injection Hres as Hres.
  rewrite (filter_ext _ _ (matches_uid (kind this) (Js.str uid))) in Hres.
  destruct results as [|r0 rest]; [now left|].
  unfold Datastore.delete.
  destruct (delete_all_cases [ent_key r0] w1) as [Hd|Hd];
    destruct (Datastore.delete_all [ent_key r0] w1) as [[err|[]] w2];
    simpl in Hd |- *; rewrite Hd, He; try (now left);
    right; exists r0, rest; now split.
Qed.

(** Deleting by the key of an entity of a datastore with distinct keys
    takes out one entity. *)
Lemma remove_one_length (r0 : Entity) (es : list Entity) :
  distinct_keys es = true -> In r0 es ->
  S (List.length (Datastore.remove [ent_key r0] es)) = List.length es.
Proof.
  unfold Datastore.remove. induction es as [|e es IH]; simpl; [tauto|].
  intros Hd Hin. pose proof Hd as Hd'. simpl in Hd'.
  apply andb_true_iff in Hd'. destruct Hd' as [_ Hes].
  destruct Hin as [->|Hin].
  - rewrite key_eqb_refl. simpl. f_equal. f_equal. apply filter_all.
    intros x Hx. pose proof (distinct_keys_head r0 es x Hd Hx) as Hk.
    unfold Datastore.has_key in Hk. now rewrite Hk.
  - pose proof (distinct_keys_head e es r0 Hd Hin) as Hk.
    unfold Datastore.has_key in Hk. rewrite key_eqb_sym, Hk. simpl.
    f_equal. now apply IH.
Qed.

(** What [clear] does when the backend does not fail. *)
Lemma clear_run (this : DatastoreStore) (w : World) :
  fault_free w = true ->
  exists w',
    clear this true w = (Callback None, w')
    /\ fault_free w' = true
    /\ clock w' = clock w
    /\ stored this w' = [].
Proof.
  intro Hw. unfold clear. cbn [negb].
  rewrite runQuery_ok by assumption.
  rewrite (filter_ext _ _ (matches_kind (kind this))).
  fold (stored this w).
  destruct (stored this w) as [|e0 rest] eqn:Hs.
  - eexists. split; [reflexivity|]. split; [now apply logged_fault_free|].
    split; [reflexivity|exact Hs].
  - cbn [List.length Nat.ltb Nat.leb].
    rewrite delete_all_ok by now apply logged_fault_free.
    eexists. split; [reflexivity|]. split; [|split; [reflexivity|]].
    + rewrite with_entities_fault_free.
      apply logged_fault_free. now apply logged_fault_free.
    + rewrite <- Hs. unfold stored, Datastore.with_entities, logged.
      cbn [entities]. apply remove_all_of_kind.
Qed.

(** [invalidateUser] leaves the records of every other user of the store,
    and the records of every other kind, exactly as they were, whatever the
    arguments and the backend do. *)
Theorem invalidateUser_leaves_other_users (this : DatastoreStore)
    (uid : option string) (callback : bool) (w : World) (k : Kind) (u : string) :
  distinct_keys (entities w) = true ->
  k <> kind this \/ u <> Js.str uid ->
  List.filter (of_uid k u) (entities (snd (invalidateUser this uid callback w)))
  = List.filter (of_uid k u) (entities w).
Proof.
  intros Hd Hdiff.
  destruct (invalidateUser_entities this uid callback w)
    as [->|[r0 [rest [Hr ->]]]]; [reflexivity|].
  destruct (filter_head_in _ _ _ _ Hr) as [Hin Hp].
  unfold Datastore.remove. rewrite filter_swap. apply filter_all.
  intros x Hx. apply filter_In in Hx. destruct Hx as [Hx Hpx]. simpl.
  destruct (Datastore.key_eqb (ent_key x) (ent_key r0)) eqn:E; [|reflexivity].
  apply key_eqb_eq in E. rewrite (distinct_same_key _ x r0 Hd Hx Hin E) in Hpx.
  unfold of_uid, of_kind in Hp, Hpx.
  apply andb_true_iff in Hp. destruct Hp as [Hk Hu].
  apply andb_true_iff in Hpx. destruct Hpx as [Hk' Hu'].
  apply kind_eqb_eq in Hk, Hk'. apply String.eqb_eq in Hu, Hu'.
  destruct Hdiff as [H|H]; congruence.
Qed.

(** Revoking a user who has a record takes one record out of the store:
    [length()] afterwards is one less than before. *)
Theorem invalidateUser_removes_one (this : DatastoreStore) (uid : string) (w : World) :
  uid <> "" -> fault_free w = true -> distinct_keys (entities w) = true ->
  records_for this uid w <> [] ->
  let w' := snd (invalidateUser this (Some uid) true w) in
  fst (length this w) = Callback (inr (S (List.length (stored this w'))))
  /\ fst (length this w') = Callback (inr (List.length (stored this w'))).
Proof.
  intros Hu Hw Hd Hsome.
  destruct (invalidateUser_run this uid w Hu Hw) as [w' [Hrun [Hw' [_ He]]]].
  cbv zeta. rewrite Hrun. simpl snd. rewrite !length_run by assumption.
  split; [|reflexivity]. do 2 f_equal.
  destruct (records_for this uid w) as [|r0 rest] eqn:Hr; [congruence|].
  unfold records_for in Hr. destruct (filter_head_in _ _ _ _ Hr) as [Hin Hp].
  unfold stored. rewrite He. unfold Datastore.remove. rewrite filter_swap.
  symmetry.
  apply (remove_one_length r0 (List.filter (of_kind (kind this)) (entities w))).
  - now apply distinct_keys_filter.
  - apply filter_In. split; [exact Hin|].
    unfold of_uid in Hp. apply andb_true_iff in Hp. tauto.
Qed.

(** When the backend rejects the query of [invalidateUser], or answers it
    and rejects the delete, the callback gets that error and the record is
    still there. *)
Theorem invalidateUser_backend_failure (this : DatastoreStore) (uid : string) (w : World) :
  uid <> "" ->
  let result := invalidateUser this (Some uid) true w in
  (forall err fs,
     faults w = Some err :: fs ->
     fst result = Callback (Some err)
     /\ entities (snd result) = entities w
     /\ exists q, calls (snd result) = calls w ++ [CallRunQuery q])
  /\ (forall err fs,
        faults w = None :: Some err :: fs ->
        records_for this uid w <> [] ->
        fst result = Callback (Some err)
        /\ entities (snd result) = entities w
        /\ exists q ks, calls (snd result) = calls w ++ [CallRunQuery q; CallDelete ks]).
Proof.
  intros Hu. cbv zeta. unfold invalidateUser.
  rewrite (truthy_nonempty _ Hu). cbn [negb orb]. cbv zeta.
  unfold Datastore.runQuery, Datastore.delete, Datastore.delete_all, Datastore.request.
  simpl Js.str. split; intros err fs Hf.
  - rewrite Hf. simpl. split; [reflexivity|]. split; [reflexivity|].
    eexists. reflexivity.
  - intros Hsome. rewrite Hf. cbn [entities].
    rewrite (filter_ext _ _ (matches_uid (kind this) uid)).
    fold (records_for this uid w).
    destruct (records_for this uid w) as [|r0 rest]; [congruence|]. simpl.
    split; [reflexivity|]. split; [reflexivity|].
    rewrite <- app_assoc. simpl. do 2 eexists. reflexivity.
Qed.

(** When the backend rejects the query of [clear], or answers it and
    rejects the delete, the callback gets that error and every record is
    still there. *)
Theorem clear_backend_failure (this : DatastoreStore) (w : World) :
  let result := clear this true w in
  (forall err fs,
     faults w = Some err :: fs ->
     fst result = Callback (Some err) /\ entities (snd result) = entities w)
  /\ (forall err fs,
        faults w = None :: Some err :: fs ->
        stored this w <> [] ->
        fst result = Callback (Some err) /\ entities (snd result) = entities w).
Proof.
  cbv zeta. unfold clear. cbn [negb]. cbv zeta.
  unfold Datastore.runQuery, Datastore.delete_all, Datastore.request.
  split; intros err fs Hf.
  - rewrite Hf. simpl. split; reflexivity.
  - intros Hsome. rewrite Hf. cbn [entities].
    rewrite (filter_ext _ _ (matches_kind (kind this))).
    fold (stored this w).
    destruct (stored this w) as [|e0 rest]; [congruence|]. simpl.
    split; reflexivity.
Qed.

(** [length] only reads, and reports either the backend's error, without a
    count, or the count of the records of the store's kind. *)
Theorem length_error_or_count (this : DatastoreStore) (w : World) :
  entities (snd (length this w)) = entities w
  /\ (forall err fs,
        faults w = Some err :: fs -> fst (length this w) = Callback (inl err))
  /\ (forall n,
        fst (length this w) = Callback (inr n) -> n = List.length (stored this w)).
Proof.
  split; [apply length_entities|]. unfold length.
  unfold Datastore.runQuery, Datastore.request. split.
  - intros err fs Hf. now rewrite Hf.
  - intros n. destruct (faults w) as [|[err|] fs]; simpl; try discriminate;
      rewrite (filter_ext _ _ (matches_kind (kind this)));
      intros E; now injection E as <-.
Qed.

Section Composition.

Context {B : Bcrypt}.

(** After [clear], no token of any user of the store is accepted. *)
Theorem clear_then_authenticate_rejected (this : DatastoreStore) (token uid : string)
    (w : World) :
  token <> "" -> uid <> "" -> fault_free w = true ->
  fst (authenticate this (Some token) (Some uid) true (snd (clear this true w)))
  = Callback rejected.
Proof.
  intros Ht Hu Hw.
  destruct (clear_run this w Hw) as [w' [Hrun [Hw' [_ Hs]]]].
  rewrite Hrun. simpl snd. rewrite authenticate_run by assumption.
  unfold live_for, records_for, of_uid. rewrite filter_and.
  fold (stored this w'). now rewrite Hs.
Qed.

(** No operation repeats a request: whatever the arguments, bcrypt and the
    backend do, [authenticate] and [length] put at most one request to the
    backend and [storeOrUpdate], [invalidateUser] and [clear] at most two. *)
Theorem operations_do_not_retry (this : DatastoreStore) (token uid : option string)
    (ms : option Js.Number) (origin : option string) (callback : bool) (w : World) :
  (exists l, calls (snd (authenticate this token uid callback w)) = calls w ++ l
             /\ (List.length l <= 1)%nat)
  /\ (exists l, calls (snd (storeOrUpdate this token uid ms origin callback w))
                = calls w ++ l
                /\ (List.length l <= 2)%nat)
  /\ (exists l, calls (snd (invalidateUser this uid callback w)) = calls w ++ l
                /\ (List.length l <= 2)%nat)
  /\ (exists l, calls (snd (clear this callback w)) = calls w ++ l
                /\ (List.length l <= 2)%nat)
  /\ (exists l, calls (snd (length this w)) = calls w ++ l
                /\ (List.length l <= 1)%nat).
Proof.
  assert (Hnil : forall w0 : World, exists l,
            calls w0 = calls w0 ++ l /\ (List.length l <= 2)%nat).
  { intro w0. exists []. rewrite app_nil_r. split; [reflexivity|simpl; lia]. }
  split; [|split; [|split; [|split]]].
  - destruct (authenticate_world this token uid callback w) as [->|[q ->]].
    + exists []. rewrite app_nil_r. split; [reflexivity|simpl; lia].
    + rewrite request_calls. eexists. split; [reflexivity|simpl; lia].
  - unfold storeOrUpdate.
    destruct (negb (Js.truthy token) || negb (Js.truthy uid)
              || negb (Js.truthy_number ms) || negb callback); [apply Hnil|].
    unfold hash.
    destruct (bcrypt_hash (Js.str token) 10 (rng w)) as [err|digest];
      [apply (Hnil w)|]. cbv zeta.
    match goal with |- context [Datastore.runQuery ?q ?w1] =>
      pose proof (runQuery_calls q w1) as Hq;
      destruct (Datastore.runQuery q w1) as [[err|results] w2]
    end; simpl in Hq.
    + simpl. rewrite Hq. eexists. split; [reflexivity|simpl; lia].
    + match goal with |- context [Datastore.upsert ?e w2] =>
        pose proof (upsert_calls e w2) as Hu;
        destruct (Datastore.upsert e w2) as [[err|[]] w3]
      end; simpl in Hu |- *; rewrite Hu, Hq, <- app_assoc;
        eexists; (split; [reflexivity|simpl; lia]).
  - unfold invalidateUser.
    destruct (negb (Js.truthy uid) || negb callback); [apply Hnil|]. cbv zeta.
    match goal with |- context [Datastore.runQuery ?q w] =>
      pose proof (runQuery_calls q w) as Hq;
      destruct (Datastore.runQuery q w) as [[err|results] w1]
    end; simpl in Hq.
    + simpl. rewrite Hq. eexists. split; [reflexivity|simpl; lia].
    + destruct results as [|r0 rest].
      * simpl. rewrite Hq. eexists. split; [reflexivity|simpl; lia].
      * unfold Datastore.delete.
        pose proof (delete_all_calls [ent_key r0] w1) as Hd.
        destruct (Datastore.delete_all [ent_key r0] w1) as [[err|[]] w2];
          simpl in Hd |- *; rewrite Hd, Hq, <- app_assoc;
          eexists; (split; [reflexivity|simpl; lia]).
  - unfold clear.
    destruct (negb callback); [apply Hnil|]. cbv zeta.
    match goal with |- context [Datastore.runQuery ?q w] =>
      pose proof (runQuery_calls q w) as Hq;
      destruct (Datastore.runQuery q w) as [[err|results] w1]
    end; simpl in Hq.
    + simpl. rewrite Hq. eexists. split; [reflexivity|simpl; lia].
    + destruct (0 <? List.length results)%nat.
      * pose proof (delete_all_calls (map ent_key results) w1) as Hd.
        destruct (Datastore.delete_all (map ent_key results) w1) as [[err|[]] w2];
          simpl in Hd |- *; rewrite Hd, Hq, <- app_assoc;
          eexists; (split; [reflexivity|simpl; lia]).
      * simpl. rewrite Hq. eexists. split; [reflexivity|simpl; lia].
  - unfold length.
    match goal with |- context [Datastore.runQuery ?q w] =>
      pose proof (runQuery_calls q w) as Hq;
      destruct (Datastore.runQuery q w) as [[err|results] w1]
    end; simpl in Hq |- *; rewrite Hq; eexists; (split; [reflexivity|simpl; lia]).
Qed.

End Composition.

(** ** Calls one after the other *)

(** The write of [storeOrUpdate] keeps the keys complete and distinct. *)
Lemma put_well_formed (k : Kind) (d : TokenRecord) (es : list Entity) :
  complete_keys es = true -> distinct_keys es = true ->
  let key :=
    Datastore.complete
      match List.filter (of_uid k (uid d)) es with
      | r0 :: _ => ent_key r0
      | [] => Datastore.key k
      end es in
  complete_keys (Datastore.put key d es) = true
  /\ distinct_keys (Datastore.put key d es) = true.
Proof.
  intros Hc Hd. cbv zeta.
  destruct (List.filter (of_uid k (uid d)) es) as [|r0 rest] eqn:Hr.
  - unfold Datastore.complete, Datastore.key. simpl.
    unfold Datastore.put. rewrite allocated_key_absent. split.
    + unfold complete_keys in *. rewrite forallb_app, Hc. reflexivity.
    + apply distinct_keys_snoc; [exact Hd|apply allocated_key_absent].
  - destruct (filter_head_in _ _ _ _ Hr) as [Hin _].
    rewrite (complete_key_in r0 _ _ Hc Hin).
    unfold Datastore.put. rewrite (key_present r0 _ Hin). split.
    + unfold complete_keys in *. rewrite forallb_forall in *.
      intros x Hx. apply in_map_iff in Hx. destruct Hx as [e [<- He]].
      rewrite overwrite_keeps_key. now apply Hc.
    + rewrite distinct_keys_map; [exact Hd|]. apply overwrite_keeps_key.
Qed.

(** After the write, in a well-formed datastore where the user had one
    record at most, the user's records are the one written. *)
Lemma written_records (this : DatastoreStore) (d : TokenRecord) (w w' : World) :
  well_formed w = true ->
  (List.length (records_for this (uid d) w) <= 1)%nat ->
  entities w' = Datastore.put (target_key this (uid d) w) d (entities w) ->
  records_for this (uid d) w' = [mkEntity (target_key this (uid d) w) d]
  /\ well_formed w' = true.
Proof.
  intros Hwf Hone He. apply andb_true_iff in Hwf. destruct Hwf as [Hc Hd].
  split.
  - assert (Hp : forall k, key_kind k = kind this ->
                           of_uid (kind this) (uid d) (mkEntity k d) = true).
    { intros k Hk. unfold of_uid, of_kind. simpl. rewrite Hk.
      now rewrite (proj2 (kind_eqb_eq _ _) eq_refl), String.eqb_refl. }
    unfold records_for in *. rewrite He. unfold target_key, chosen_key, records_for.
    destruct (List.filter (of_uid (kind this) (uid d)) (entities w))
      as [|r0 [|r1 rest]] eqn:Hr.
    + unfold Datastore.complete, Datastore.key. simpl.
      unfold Datastore.put. rewrite allocated_key_absent, filter_app, Hr. simpl.
      now rewrite Hp.
    + destruct (filter_head_in _ _ _ _ Hr) as [Hin Hpr].
      rewrite (complete_key_in r0 _ _ Hc Hin).
      unfold Datastore.put. rewrite (key_present r0 _ Hin).
      apply overwrite_exact; [exact Hd| |exact Hr].
      apply Hp. unfold of_uid, of_kind in Hpr. apply andb_true_iff in Hpr.
      destruct Hpr as [Hk _]. now apply kind_eqb_eq in Hk.
    + simpl in Hone. lia.
  - unfold well_formed. rewrite He. unfold target_key, chosen_key, records_for.
    destruct (put_well_formed (kind this) d (entities w) Hc Hd) as [-> ->].
    reflexivity.
Qed.

Section OneAfterTheOther.

Context {B : Bcrypt}.

(** A user whose token was stored and who was then revoked has no record,
    and no token is accepted for that user. *)
Theorem store_then_invalidate_rejects (this : DatastoreStore) (token uid : string)
    (ms : Z) (origin : option string) (w : World) (digest : string)
    (candidate : string) :
  token <> "" -> uid <> "" -> ms <> 0%Z -> candidate <> "" ->
  fault_free w = true -> well_formed w = true ->
  bcrypt_hash token 10 (rng w) = inr digest ->
  (List.length (records_for this uid w) <= 1)%nat ->
  let w1 := snd (storeOrUpdate this (Some token) (Some uid)
      (Some (Js.Int ms)) origin true w) in
  let w2 := snd (invalidateUser this (Some uid) true w1) in
  records_for this uid w2 = []
  /\ fst (authenticate this (Some candidate) (Some uid) true w2) = Callback rejected.
Proof.
  intros Ht Hu Hms Hcand Hw Hwf Hh Hone.
  destruct (storeOrUpdate_run this token uid ms origin w digest Ht Hu Hms Hw Hh)
    as [w1 [Hrun [He [_ Hw1]]]].
  cbv zeta. rewrite Hrun. simpl snd.
  destruct (written_records this (mkRecord uid digest (clock w + ms) origin) w w1
              Hwf Hone He) as [Hrec _].
  simpl in Hrec.
  destruct (invalidateUser_run this uid w1 Hu Hw1) as [w2 [Hrun2 [Hw2 [_ He2]]]].
  rewrite Hrun2. simpl snd. rewrite Hrec in He2.
  assert (Hnone : records_for this uid w2 = []).
  { unfold records_for in *. rewrite He2. unfold Datastore.remove.
    rewrite filter_swap, Hrec. simpl. now rewrite key_eqb_refl. }
  split; [exact Hnone|].
  rewrite authenticate_run by assumption. unfold live_for. now rewrite Hnone.
Qed.

(** Once the time to live has run out, the stored token, like any other,
    is turned down, while [length()] goes on counting its record.  With a
    negative msToLive this is so from the start. *)
Theorem stored_token_is_rejected_after_ttl (this : DatastoreStore) (token uid : string)
    (ms : Z) (origin : option string) (w : World) (digest : string)
    (waited : Z) (candidate : string) :
  token <> "" -> uid <> "" -> ms <> 0%Z -> candidate <> "" ->
  (ms <= waited)%Z ->
  fault_free w = true -> well_formed w = true ->
  bcrypt_hash token 10 (rng w) = inr digest ->
  (List.length (records_for this uid w) <= 1)%nat ->
  let w1 := snd (storeOrUpdate this (Some token) (Some uid)
      (Some (Js.Int ms)) origin true w) in
  fst (authenticate this (Some candidate) (Some uid) true (elapse waited w1))
  = Callback rejected
  /\ exists n, fst (length this (elapse waited w1)) = Callback (inr (S n)).
Proof.
  intros Ht Hu Hms Hcand Hwait Hw Hwf Hh Hone.
  destruct (storeOrUpdate_run this token uid ms origin w digest Ht Hu Hms Hw Hh)
    as [w1 [Hrun [He [Hclock Hw1]]]].
  cbv zeta. rewrite Hrun. simpl snd.
  destruct (written_records this (mkRecord uid digest (clock w + ms) origin) w w1
              Hwf Hone He) as [Hrec _].
  simpl in Hrec.
  assert (Hrec' : records_for this uid (elapse waited w1)
                  = [mkEntity (target_key this uid w)
                       (mkRecord uid digest (clock w + ms) origin)])
    by exact Hrec.
  split.
  - rewrite authenticate_run; [|assumption|assumption|exact Hw1].
    unfold live_for. rewrite Hrec'. simpl. unfold live. simpl.
    rewrite Hclock.
    destruct (clock w + waited <? clock w + ms)%Z eqn:E; [|reflexivity].
    apply Z.ltb_lt in E. lia.
  - rewrite length_run by exact Hw1.
    unfold records_for, of_uid in Hrec'. rewrite filter_and in Hrec'.
    fold (stored this (elapse waited w1)) in Hrec'.
    destruct (stored this (elapse waited w1)) as [|e l]; [discriminate|].
    exists (List.length l). reflexivity.
Qed.


End OneAfterTheOther.

(** ** The further theorems at work *)

Lemma authenticate_accepts_only_verified_witness :
  exists e,
    In e (entities one_world)
    /\ of_uid (kind test_store) "u1" e = true
    /\ (clock one_world < ttl (ent_data e))%Z
    /\ bcrypt_compare (Bcrypt := ToyBcrypt) "abc123" (hashedToken (ent_data e)) = inr true
    /\ mkAuth None true (Some "/dashboard")
       = mkAuth None true (Some (Js.or_empty (originUrl (ent_data e)))).
Proof.
  exact (authenticate_accepts_only_verified (B := ToyBcrypt) test_store
           (Some "abc123") (Some "u1") true one_world
           (mkAuth None true (Some "/dashboard")) eq_refl eq_refl).
Defined.

Lemma storeOrUpdate_leaves_other_users_witness :
  List.filter (of_uid (kind test_store) "u2")
    (entities (snd (storeOrUpdate (B := ToyBcrypt) test_store (Some "fresh") (Some "u1")
                      (Some (Js.Int 500%Z)) None true duplicate_world)))
  = [test_record "u2" "$other" 2000 None 2].
Proof.
  assert (Hother : kind test_store <> kind test_store \/ "u2" <> Js.str (Some "u1"))
    by (right; discriminate).
  assert (Hwf : well_formed duplicate_world = true) by reflexivity.
  etransitivity.
  - exact (storeOrUpdate_leaves_other_users (B := ToyBcrypt) test_store
             (Some "fresh") (Some "u1") (Some (Js.Int 500%Z)) None true duplicate_world
             (kind test_store) "u2" Hwf Hother).
  - reflexivity.
Defined.

Lemma storeOrUpdate_hash_failure_witness :
  fst (storeOrUpdate (B := SaltlessBcrypt) test_store (Some "abc123") (Some "u1")
         (Some (Js.Int 1000%Z)) None true one_world)
  = Callback (Some "salt generation failed")
  /\ entities (snd (storeOrUpdate (B := SaltlessBcrypt) test_store (Some "abc123")
                      (Some "u1") (Some (Js.Int 1000%Z)) None true one_world))
     = entities one_world
  /\ calls (snd (storeOrUpdate (B := SaltlessBcrypt) test_store (Some "abc123")
                   (Some "u1") (Some (Js.Int 1000%Z)) None true one_world))
     = [].
Proof.
  exact (storeOrUpdate_hash_failure (B := SaltlessBcrypt) test_store "abc123" "u1"
           1000 None one_world "salt generation failed"
           ltac:(discriminate) ltac:(discriminate) ltac:(discriminate) eq_refl).
Defined.

Lemma storeOrUpdate_backend_failure_witness :
  fst (storeOrUpdate (B := ToyBcrypt) test_store (Some "fresh") (Some "u1")
         (Some (Js.Int 1000%Z)) None true failing_world)
  = Callback (Some "UNAVAILABLE")
  /\ fst (storeOrUpdate (B := ToyBcrypt) test_store (Some "fresh") (Some "u1")
            (Some (Js.Int 1000%Z)) None true write_failing_world)
     = Callback (Some "DEADLINE_EXCEEDED")
  /\ entities (snd (storeOrUpdate (B := ToyBcrypt) test_store (Some "fresh") (Some "u1")
                      (Some (Js.Int 1000%Z)) None true write_failing_world))
     = entities write_failing_world.
Proof.
  pose proof (storeOrUpdate_backend_failure (B := ToyBcrypt) test_store "fresh" "u1"
                1000 None failing_world _
                ltac:(discriminate) ltac:(discriminate) ltac:(discriminate) eq_refl)
    as H1.
  pose proof (storeOrUpdate_backend_failure (B := ToyBcrypt) test_store "fresh" "u1"
                1000 None write_failing_world _
                ltac:(discriminate) ltac:(discriminate) ltac:(discriminate) eq_refl)
    as H2.
  cbv zeta in H1, H2.
  destruct (proj1 H1 _ _ eq_refl) as [Hq _].
  destruct (proj2 H2 _ _ eq_refl) as [Hu [He _]].
  split; [exact Hq|]. split; [exact Hu|exact He].
Defined.

Lemma storeOrUpdate_new_user_adds_one_witness :
  fst (length test_store one_world) = Callback (inr 1%nat)
  /\ fst (length test_store
            (snd (storeOrUpdate (B := ToyBcrypt) test_store (Some "other") (Some "u2")
                    (Some (Js.Int 1000%Z)) None true one_world)))
     = Callback (inr 2%nat).
Proof.
  exact (storeOrUpdate_new_user_adds_one (B := ToyBcrypt) test_store "other" "u2"
           1000 None one_world _
           ltac:(discriminate) ltac:(discriminate) ltac:(discriminate)
           eq_refl eq_refl eq_refl).
Defined.

Lemma invalidateUser_leaves_other_users_witness :
  List.filter (of_uid (kind test_store) "u2")
    (entities (snd (invalidateUser test_store (Some "u1") true duplicate_world)))
  = [test_record "u2" "$other" 2000 None 2].
Proof.
  assert (Hother : kind test_store <> kind test_store \/ "u2" <> Js.str (Some "u1"))
    by (right; discriminate).
  assert (Hd : distinct_keys (entities duplicate_world) = true) by reflexivity.
  etransitivity.
  - exact (invalidateUser_leaves_other_users test_store (Some "u1") true
             duplicate_world (kind test_store) "u2" Hd Hother).
  - reflexivity.
Defined.

Lemma invalidateUser_removes_one_witness :
  fst (length test_store duplicate_world) = Callback (inr 3%nat)
  /\ fst (length test_store
            (snd (invalidateUser test_store (Some "u2") true duplicate_world)))
     = Callback (inr 2%nat).
Proof.
  exact (invalidateUser_removes_one test_store "u2" duplicate_world
           ltac:(discriminate) eq_refl eq_refl ltac:(discriminate)).
Defined.

Lemma invalidateUser_backend_failure_witness :
  fst (invalidateUser test_store (Some "u1") true failing_world)
  = Callback (Some "UNAVAILABLE")
  /\ fst (invalidateUser test_store (Some "u1") true write_failing_world)
     = Callback (Some "DEADLINE_EXCEEDED")
  /\ entities (snd (invalidateUser test_store (Some "u1") true write_failing_world))
     = entities write_failing_world.
Proof.
  pose proof (invalidateUser_backend_failure test_store "u1" failing_world
                ltac:(discriminate)) as H1.
  pose proof (invalidateUser_backend_failure test_store "u1" write_failing_world
                ltac:(discriminate)) as H2.
  cbv zeta in H1, H2.
  destruct (proj1 H1 _ _ eq_refl) as [Hq _].
  destruct (proj2 H2 _ _ eq_refl ltac:(discriminate)) as [Hd [He _]].
  split; [exact Hq|]. split; [exact Hd|exact He].
Defined.

Lemma clear_then_authenticate_rejected_witness :
  fst (authenticate (B := ToyBcrypt) test_store (Some "abc123") (Some "u1") true one_world)
  = Callback (mkAuth None true (Some "/dashboard"))
  /\ fst (authenticate (B := ToyBcrypt) test_store (Some "abc123") (Some "u1") true
            (snd (clear test_store true one_world)))
     = Callback rejected.
Proof.
  split; [reflexivity|].
  exact (clear_then_authenticate_rejected (B := ToyBcrypt) test_store "abc123" "u1"
           one_world ltac:(discriminate) ltac:(discriminate) eq_refl).
Defined.

Lemma store_then_invalidate_rejects_witness :
  fst (authenticate (B := ToyBcrypt) test_store (Some "abc123") (Some "u1") true
         (snd (invalidateUser test_store (Some "u1") true
                 (snd (storeOrUpdate (B := ToyBcrypt) test_store (Some "abc123")
                         (Some "u1") (Some (Js.Int 1000%Z)) None true empty_world)))))
  = Callback rejected.
Proof.
  exact (proj2 (store_then_invalidate_rejects (B := ToyBcrypt) test_store "abc123"
                  "u1" 1000 None empty_world _ "abc123"
                  ltac:(discriminate) ltac:(discriminate) ltac:(discriminate)
                  ltac:(discriminate) eq_refl eq_refl eq_refl
                  ltac:(vm_compute; lia))).
Defined.

Lemma stored_token_is_rejected_after_ttl_witness :
  fst (authenticate (B := ToyBcrypt) test_store (Some "abc123") (Some "u1") true
         (elapse 1000
            (snd (storeOrUpdate (B := ToyBcrypt) test_store (Some "abc123") (Some "u1")
                    (Some (Js.Int 1000%Z)) None true empty_world))))
  = Callback rejected.
Proof.
  exact (proj1 (stored_token_is_rejected_after_ttl (B := ToyBcrypt) test_store
                  "abc123" "u1" 1000 None empty_world _ 1000 "abc123"
                  ltac:(discriminate) ltac:(discriminate) ltac:(discriminate)
                  ltac:(discriminate) ltac:(lia) eq_refl eq_refl eq_refl
                  ltac:(vm_compute; lia))).
Defined.


Lemma store_then_authenticate_within_witness :
  fst (authenticate (B := ToyBcrypt) test_store (Some "abc123") (Some "u1") true
         (elapse 999
            (snd (storeOrUpdate (B := ToyBcrypt) test_store (Some "abc123") (Some "u1")
                    (Some (Js.Int 1000%Z)) (Some "/dashboard") true empty_world))))
  = Callback (mkAuth None true (Some "/dashboard")).
Proof.
  exact (proj2 (store_then_authenticate_within (B := ToyBcrypt) (V := toy_verifies)
                  test_store "abc123" "u1" 1000 (Some "/dashboard") empty_world _ 999
                  ltac:(discriminate) ltac:(discriminate) ltac:(lia) ltac:(lia)
                  eq_refl eq_refl eq_refl)).
Defined.

Lemma sequential_use_keeps_one_record_witness :
  well_formed
    (snd (storeOrUpdate (B := ToyBcrypt) test_store (Some "t2") (Some "u1")
            (Some (Js.Int 1000%Z)) None true
            (snd (storeOrUpdate (B := ToyBcrypt) test_store (Some "t1") (Some "u1")
                    (Some (Js.Int 1000%Z)) None true empty_world))))
  = true
  /\ (List.length
        (records_for test_store "u1"
           (snd (storeOrUpdate (B := ToyBcrypt) test_store (Some "t2") (Some "u1")
                   (Some (Js.Int 1000%Z)) None true
                   (snd (storeOrUpdate (B := ToyBcrypt) test_store (Some "t1") (Some "u1")
                           (Some (Js.Int 1000%Z)) None true empty_world)))))
      <= 1)%nat.
Proof.
  pose proof (sequential_use_keeps_one_record (B := ToyBcrypt) _
                (reachable_step _ _
                   (reachable_step _ _ (reachable_empty 1000 0 [])
                      (step_storeOrUpdate test_store (Some "t1") (Some "u1")
                         (Some (Js.Int 1000%Z)) None true empty_world))
                   (step_storeOrUpdate test_store (Some "t2") (Some "u1")
                      (Some (Js.Int 1000%Z)) None true _))) as H.
  destruct H as [Hwf Hone]. split; [exact Hwf|apply Hone].
Defined.
